(** * HelmChartInflationGenerator: a shallow embedding

    The plugin of
    [plugin/builtin/helmchartinflationgenerator/HelmChartInflationGenerator.go]
    is embedded function by function.  Go strings and byte slices are
    both byte sequences and are modelled by [string]; the operating
    system (filesystem, process environment, child processes) is an
    explicit [World] threaded through a small state monad that also
    records run-time panics and a log of the system calls made. *)

From Stdlib Require Import String Ascii List Bool Arith Lia.
Import ListNotations.
Open Scope string_scope.
Open Scope list_scope.
Open Scope nat_scope.

Set Implicit Arguments.

(** ** Byte-string helpers *)

Definition isDigit (c : ascii) : bool :=
  let n := nat_of_ascii c in (48 <=? n) && (n <=? 57).

Definition isSlash (c : ascii) : bool := Ascii.eqb c "/".

Definition notSlash (c : ascii) : bool := negb (isSlash c).

Fixpoint allb (f : ascii -> bool) (s : string) : bool :=
  match s with
  | EmptyString => true
  | String c s' => f c && allb f s'
  end.

(** ** Go run-time outcomes

    A Go call either returns or panics; deferred calls run in both cases. *)

Inductive Outcome (A : Type) : Type :=
| Val (a : A)
| Panic (msg : string).
Arguments Val {A} a.
Arguments Panic {A} msg.

Definition error := string.

(** [s[lo:]] on a string: a run-time panic when [lo > len(s)]. *)
Definition sliceFrom (s : string) (lo : nat) : Outcome string :=
  if lo <=? String.length s
  then Val (substring lo (String.length s - lo) s)
  else Panic "slice bounds out of range".

(** [l[0]] on a slice: a run-time panic when the slice is empty. *)
Definition index0 (l : list string) : Outcome string :=
  match l with
  | x :: _ => Val x
  | [] => Panic "index out of range"
  end.

(** ** Package [strings] *)

Module strings.

(** [strings.Join(elems, sep)]. *)
Definition Join (elems : list string) (sep : string) : string :=
  String.concat sep elems.

(** [strings.Split(s, sep)] for a one-byte separator, the only kind the
    plugin passes: the fields between consecutive occurrences of [sep],
    at least one. *)
Fixpoint Split (s : string) (sep : ascii) : list string :=
  match s with
  | EmptyString => [EmptyString]
  | String c s' =>
      if Ascii.eqb c sep then EmptyString :: Split s' sep
      else match Split s' sep with
           | x :: xs => String c x :: xs
           | [] => [String c EmptyString]
           end
  end.

End strings.

(** ** Package [path]: [Clean] and [Join]

    [Clean] is the byte-by-byte loop of the Go library: [out] is the
    output buffer (kept reversed), [dotdot] the length below which a
    [..] element may not backtrack, [inElem] tells that a real path
    element is being copied. *)

Module path.

(** The loop [out.w--; for out.w > dotdot && out.index(out.w) != '/' { out.w-- }]:
    [c] is the byte at index [out.w], i.e. the one dropped last. *)
Fixpoint backtrackLoop (dotdot : nat) (c : ascii) (out : list ascii) : list ascii :=
  if (dotdot <? List.length out) && negb (isSlash c) then
    match out with
    | c' :: out' => backtrackLoop dotdot c' out'
    | [] => out
    end
  else out.

Definition backtrack (dotdot : nat) (out : list ascii) : list ascii :=
  match out with
  | c :: out' => backtrackLoop dotdot c out'
  | [] => out
  end.

Definition atElemEnd (s : string) : bool :=
  match s with
  | EmptyString => true
  | String c _ => isSlash c
  end.

Definition startElem (rooted : bool) (out : list ascii) : list ascii :=
  if (rooted && negb (List.length out =? 1)) || (negb rooted && negb (List.length out =? 0))
  then "/"%char :: out else out.

Fixpoint cleanLoop (rooted inElem : bool) (dotdot : nat) (out : list ascii)
    (s : string) : list ascii :=
  match s with
  | EmptyString => out
  | String c s1 =>
      if inElem then
        if isSlash c then cleanLoop rooted false dotdot out s1
        else cleanLoop rooted true dotdot (c :: out) s1
      else if isSlash c then cleanLoop rooted false dotdot out s1
      else if Ascii.eqb c "." && atElemEnd s1 then
        cleanLoop rooted false dotdot out s1
      else
        match s1 with
        | String c1 s2 =>
            if Ascii.eqb c "." && Ascii.eqb c1 "." && atElemEnd s2 then
              if dotdot <? List.length out then
                cleanLoop rooted false dotdot (backtrack dotdot out) s2
              else if negb rooted then
                let out1 := if 0 <? List.length out then "/"%char :: out else out in
                let out2 := "."%char :: "."%char :: out1 in
                cleanLoop rooted false (List.length out2) out2 s2
              else cleanLoop rooted false dotdot out s2
            else cleanLoop rooted true dotdot (c :: startElem rooted out) s1
        | EmptyString => cleanLoop rooted true dotdot (c :: startElem rooted out) s1
        end
  end.

Definition Clean (p : string) : string :=
  match p with
  | EmptyString => "."
  | String c rest =>
      let out :=
        if isSlash c then cleanLoop true false 1 ["/"%char] rest
        else cleanLoop false false 0 [] p in
      match out with
      | [] => "."
      | _ => string_of_list_ascii (rev out)
      end
  end.

(** [buf] of [Join]: empty leading elements are skipped, every later
    element is appended after a slash. *)
Fixpoint joinBuf (buf : string) (elem : list string) : string :=
  match elem with
  | [] => buf
  | e :: rest =>
      if negb (String.length buf =? 0) then joinBuf (buf ++ "/" ++ e) rest
      else if negb (String.eqb e "") then joinBuf (buf ++ e) rest
      else joinBuf buf rest
  end.

Definition Join (elem : list string) : string :=
  if fold_right (fun e n => String.length e + n) 0 elem =? 0 then ""
  else Clean (joinBuf "" elem).

End path.

(** A plain path element: non-empty, without slash, neither "." nor "..". *)
Definition plainElem (e : string) : Prop :=
  e <> ""%string /\ allb notSlash e = true /\ e <> "."%string /\ e <> ".."%string.

(** The absolute path with the elements [es]. *)
Definition absPath (es : list string) : string := ("/" ++ String.concat "/" es)%string.

(** A position where a path element ends. *)
Definition boundary (s : string) : Prop :=
  s = ""%string \/ exists s', s = String "/" s'.

(** ** The version pattern [v\d+(\.\d+)+]

    [regexp.Find] returns the leftmost match, and at that position the
    match the greedy quantifiers reach first.  [\d] is an ASCII digit. *)

Module regexp.

(** Longest prefix of [s] in [\d*(\.\d+)*]: the rest of a digit run and
    the groups that follow it. *)
Fixpoint tailMatch (s : string) : string :=
  match s with
  | EmptyString => EmptyString
  | String c s1 =>
      if isDigit c then String c (tailMatch s1)
      else if Ascii.eqb c "." then
        match s1 with
        | String c1 _ => if isDigit c1 then String c (tailMatch s1) else EmptyString
        | EmptyString => EmptyString
        end
      else EmptyString
  end.

Fixpoint hasDot (s : string) : bool :=
  match s with
  | EmptyString => false
  | String c s1 => Ascii.eqb c "." || hasDot s1
  end.

(** The match of the pattern anchored at the start of [s], if any. *)
Definition matchAt (s : string) : option string :=
  match s with
  | String c0 (String c1 s2) =>
      if Ascii.eqb c0 "v" && isDigit c1 then
        let t := tailMatch s2 in
        if hasDot t then Some (String c0 (String c1 t)) else None
      else None
  | _ => None
  end.

(** [r.Find(b)] for [r = regexp.Compile(`v\d+(\.\d+)+`)]; [None] is the
    nil slice returned when nothing matches. *)
Fixpoint Find (b : string) : option string :=
  match matchAt b with
  | Some m => Some m
  | None =>
      match b with
      | EmptyString => None
      | String _ b' => Find b'
      end
  end.

(** The language of the pattern, stated independently of the matcher. *)
Definition Digits1 (d : string) : Prop := d <> "" /\ allb isDigit d = true.

Inductive Groups : string -> Prop :=
| GroupsOne d : Digits1 d -> Groups ("." ++ d)%string
| GroupsMore d g : Digits1 d -> Groups g -> Groups ("." ++ d ++ g)%string.

Definition VersionShaped (m : string) : Prop :=
  exists d g, Digits1 d /\ Groups g /\ m = ("v" ++ d ++ g)%string.

(** [b] contains a substring matching the pattern. *)
Definition ContainsVersion (b : string) : Prop :=
  exists pre m post, VersionShaped m /\ b = (pre ++ m ++ post)%string.

End regexp.

(** ** The operating system as seen by the plugin *)

Inductive FileMode := ModeDir | ModeFile.

Definition FS := list (string * FileMode).

Fixpoint lookupFS (fs : FS) (name : string) : option FileMode :=
  match fs with
  | [] => None
  | (n, m) :: fs' => if String.eqb n name then Some m else lookupFS fs' name
  end.

(** [name] is [dir] itself or lies below it. *)
Definition within (dir name : string) : bool :=
  String.eqb name dir || String.prefix (dir ++ "/") name.

Inductive Event :=
| EvTmpDir
| EvStat (name : string)
| EvRemoveAll (name : string)
| EvExec (bin : string) (args env : list string).

Record World := mkWorld {
  fs : FS;
  environ : list string;     (* os.Environ() of the calling process *)
  log : list Event           (* system calls made so far, oldest first *)
}.

Definition Op (A : Type) : Type := World -> Outcome A * World.

Definition ret {A} (a : A) : Op A := fun w => (Val a, w).

Definition bind {A B} (c : Op A) (k : A -> Op B) : Op B :=
  fun w => match c w with
           | (Val a, w') => k a w'
           | (Panic m, w') => (Panic m, w')
           end.

Definition panic {A} (msg : string) : Op A := fun w => (Panic msg, w).

Definition lift {A} (o : Outcome A) : Op A := fun w => (o, w).

(** [defer cleanup(); body]: [cleanup] runs when [body] returns or panics. *)
Definition defer {A B} (cleanup : Op B) (body : Op A) : Op A :=
  fun w => let '(r, w') := body w in (r, snd (cleanup w')).

Notation "x <- c ;; k" := (bind c (fun x => k))
  (at level 61, c at next level, right associativity).
Notation "' pat <- c ;; k" := (bind c (fun x => match x with pat => k end))
  (at level 61, pat pattern, c at next level, right associativity).

Definition emit (e : Event) : Op unit :=
  fun w => (Val tt, mkWorld (fs w) (environ w) (log w ++ [e])).

Definition getFS : Op FS := fun w => (Val (fs w), w).
Definition putFS (f : FS) : Op unit :=
  fun w => (Val tt, mkWorld f (environ w) (log w)).
Definition os_Environ : Op (list string) := fun w => (Val (environ w), w).

(** [os.Stat(name)]: the file mode, or an error when nothing is there. *)
Definition os_Stat (name : string) : Op (option FileMode * option error) :=
  _ <- emit (EvStat name) ;;
  f <- getFS ;;
  match lookupFS f name with
  | Some m => ret (Some m, None)
  | None => ret (None, Some ("stat " ++ name ++ ": no such file or directory")%string)
  end.

(** [os.RemoveAll(name)]: removes [name] and everything below it; the
    empty path is accepted and nothing is removed. *)
Definition removeAllFS (name : string) (f : FS) : FS :=
  if String.eqb name "" then f
  else filter (fun e => negb (within name (fst e))) f.

Definition os_RemoveAll (name : string) : Op (option error) :=
  _ <- emit (EvRemoveAll name) ;;
  f <- getFS ;;
  _ <- putFS (removeAllFS name f) ;;
  ret None.

(** ** Package [os/exec]

    [Env] is a slice that is nil on a fresh [Cmd]; a nil [Env] makes the
    child inherit the environment of the calling process, any other
    value is the child's whole environment. *)

Record Cmd := mkCmd {
  cmdPath : string;
  cmdArgs : list string;
  cmdEnv : option (list string)      (* [None] is the nil slice *)
}.

Definition exec_Command (name : string) (arg : list string) : Cmd :=
  mkCmd name (name :: arg) None.

(** [append(s, xs...)] on a slice that may be nil. *)
Definition appendSlice {A} (s : option (list A)) (xs : list A) : option (list A) :=
  match s, xs with
  | None, [] => None
  | None, _ => Some xs
  | Some l, _ => Some (l ++ xs)
  end.

Definition setEnv (c : Cmd) (e : option (list string)) : Cmd :=
  mkCmd (cmdPath c) (cmdArgs c) e.

(** What a finished child process leaves behind: the two captured
    buffers and the error of [cmd.Run()] (non-zero exit, failure to start). *)
Record ProcResult := mkProcResult {
  procStdout : string;
  procStderr : string;
  procErr : option error
}.

(** The environment the child process of [c] is started with. *)
Definition childEnv (c : Cmd) (w : World) : list string :=
  match cmdEnv c with
  | None => environ w
  | Some e => e
  end.

(** ** The plugin's data *)

(** [types.HelmChartArgs], embedded in the plugin struct. *)
Record HelmChartArgs := mkArgs {
  ChartName : string;
  ChartVersion : string;
  ChartRepoURL : string;
  ChartHome : string;
  ChartRepoName : string;
  HelmBin : string;
  HelmHome : string;
  Values : string;
  ReleaseName : string;
  ReleaseNamespace : string;
  ExtraArgs : list string
}.

Definition setChartHome (a : HelmChartArgs) (v : string) : HelmChartArgs :=
  mkArgs (ChartName a) (ChartVersion a) (ChartRepoURL a) v (ChartRepoName a)
    (HelmBin a) (HelmHome a) (Values a) (ReleaseName a) (ReleaseNamespace a) (ExtraArgs a).
Definition setChartRepoName (a : HelmChartArgs) (v : string) : HelmChartArgs :=
  mkArgs (ChartName a) (ChartVersion a) (ChartRepoURL a) (ChartHome a) v
    (HelmBin a) (HelmHome a) (Values a) (ReleaseName a) (ReleaseNamespace a) (ExtraArgs a).
Definition setHelmBin (a : HelmChartArgs) (v : string) : HelmChartArgs :=
  mkArgs (ChartName a) (ChartVersion a) (ChartRepoURL a) (ChartHome a) (ChartRepoName a)
    v (HelmHome a) (Values a) (ReleaseName a) (ReleaseNamespace a) (ExtraArgs a).
Definition setHelmHome (a : HelmChartArgs) (v : string) : HelmChartArgs :=
  mkArgs (ChartName a) (ChartVersion a) (ChartRepoURL a) (ChartHome a) (ChartRepoName a)
    (HelmBin a) v (Values a) (ReleaseName a) (ReleaseNamespace a) (ExtraArgs a).
Definition setValues (a : HelmChartArgs) (v : string) : HelmChartArgs :=
  mkArgs (ChartName a) (ChartVersion a) (ChartRepoURL a) (ChartHome a) (ChartRepoName a)
    (HelmBin a) (HelmHome a) v (ReleaseName a) (ReleaseNamespace a) (ExtraArgs a).

(** The collaborators the plugin calls but does not define: the YAML
    decoder, the temporary-directory allocator of package [filesys], the
    child process behind [cmd.Run()], and the resource-map type. *)
Class Host := {
  ResMap : Type;
  yaml_Unmarshal : string -> HelmChartArgs -> HelmChartArgs * option error;
  NewTmpConfirmedDir : FS -> (string * option error) * FS;
  runProcess : string -> list string -> list string -> FS -> ProcResult * FS
}.

Section Plugin.
Context {H : Host}.

(** [resmap.PluginHelpers], reduced to the factory method the plugin uses. *)
Record PluginHelpers := mkHelpers {
  NewResMapFromBytes : string -> option ResMap * option error
}.

Record HelmChartInflationGeneratorPlugin := mkPlugin {
  h : option PluginHelpers;          (* a pointer, nil until [Config] *)
  runHelmCommand :
    option (HelmChartArgs -> list string -> Op (string * option error));
  args : HelmChartArgs;
  tmpDir : string
}.

Definition setH p v := mkPlugin v (runHelmCommand p) (args p) (tmpDir p).
Definition setRun p v := mkPlugin (h p) v (args p) (tmpDir p).
Definition setArgs p v := mkPlugin (h p) (runHelmCommand p) v (tmpDir p).
Definition setTmpDir p v := mkPlugin (h p) (runHelmCommand p) (args p) v.

(** The zero value of the plugin struct ([var KustomizePlugin]). *)
Definition zeroArgs : HelmChartArgs := mkArgs "" "" "" "" "" "" "" "" "" "" [].
Definition KustomizePlugin : HelmChartInflationGeneratorPlugin :=
  mkPlugin None None zeroArgs "".

(** ** System calls of the collaborators, logged *)

Definition filesys_NewTmpConfirmedDir : Op (string * option error) :=
  _ <- emit EvTmpDir ;;
  f <- getFS ;;
  let '(r, f') := NewTmpConfirmedDir f in
  _ <- putFS f' ;;
  ret r.

(** [cmd.Run()] *)
Definition cmd_Run (c : Cmd) : Op ProcResult :=
  env <- (fun w => (Val (childEnv c w), w)) ;;
  _ <- emit (EvExec (cmdPath c) (tl (cmdArgs c)) env) ;;
  f <- getFS ;;
  let '(r, f') := runProcess (cmdPath c) (tl (cmdArgs c)) env f in
  _ <- putFS f' ;;
  ret r.

(** ** The closure stored in [runHelmCommand] by [Config]

    The closure captures the plugin by pointer: [a] holds the plugin's
    fields at the time of the call. *)
Definition helmEnv (a : HelmChartArgs) : list string :=
  [ ("HELM_CONFIG_HOME=" ++ HelmHome a)%string;
    ("HELM_CACHE_HOME=" ++ HelmHome a ++ "/.cache")%string;
    ("HELM_DATA_HOME=" ++ HelmHome a ++ "/.data")%string ].

Definition helmCmd (a : HelmChartArgs) (arg : list string) : Cmd :=
  let cmd := exec_Command (HelmBin a) arg in
  setEnv cmd (appendSlice (cmdEnv cmd) (helmEnv a)).

Definition runFailed (a : HelmChartArgs) (arg : list string) (stderr : string) : error :=
  (stderr ++ ": " ++
   "failed to run command " ++ HelmBin a ++ " " ++ strings.Join arg " ")%string.

Definition helmCommand (a : HelmChartArgs) (arg : list string)
  : Op (string * option error) :=
  r <- cmd_Run (helmCmd a arg) ;;
  match procErr r with
  | Some _ => ret (procStdout r, Some (runFailed a arg (procStderr r)))
  | None => ret (procStdout r, None)
  end.

(** ** [Config] *)

Definition errNoChartName : error := "chartName cannot be empty".

Definition applyDefaults (tmp : string) (a : HelmChartArgs) : HelmChartArgs :=
  let a := if String.eqb (ChartHome a) "" then setChartHome a (path.Join [tmp; "chart"]) else a in
  let a := if String.eqb (ChartRepoName a) "" then setChartRepoName a "stable" else a in
  let a := if String.eqb (HelmBin a) "" then setHelmBin a "helm" else a in
  let a := if String.eqb (HelmHome a) "" then setHelmHome a (path.Join [tmp; ".helm"]) else a in
  let a := if String.eqb (Values a) ""
           then setValues a (path.Join [ChartHome a; ChartName a; "values.yaml"]) else a in
  a.

(** [Config] mutates the receiver; the plugin after the call is returned
    together with the error. *)
Definition Config (p : HelmChartInflationGeneratorPlugin) (hp : PluginHelpers)
    (config : string) : Op (HelmChartInflationGeneratorPlugin * option error) :=
  let p := setH p (Some hp) in
  let '(a, err) := yaml_Unmarshal config (args p) in
  let p := setArgs p a in
  match err with
  | Some e => ret (p, Some e)
  | None =>
      ' (tmp, err) <- filesys_NewTmpConfirmedDir ;;
      match err with
      | Some e => ret (p, Some e)
      | None =>
          let p := setTmpDir p tmp in
          if String.eqb (ChartName (args p)) "" then ret (p, Some errNoChartName)
          else
            let p := setArgs p (applyDefaults (tmpDir p) (args p)) in
            let p := setRun p (Some helmCommand) in
            ret (p, None)
      end
  end.

(** ** Argument lists *)

Definition getTemplateCommandArgs (p : HelmChartInflationGeneratorPlugin) : list string :=
  let a := args p in
  let l := ["template"] in
  let l := if negb (String.eqb (ReleaseName a) "") then l ++ [ReleaseName a] else l in
  let l := l ++ [path.Join [ChartHome a; ChartName a]] in
  let l := if negb (String.eqb (ReleaseNamespace a) "")
           then l ++ ["--namespace"; ReleaseNamespace a] else l in
  let l := if negb (String.eqb (Values a) "") then l ++ ["--values"; Values a] else l in
  l ++ ExtraArgs a.

Definition getPullCommandArgs (p : HelmChartInflationGeneratorPlugin) : list string :=
  let a := args p in
  let l := ["pull"; "--untar"; "--untardir"; ChartHome a] in
  let chartName := (ChartRepoName a ++ "/" ++ ChartName a)%string in
  let l := if negb (String.eqb (ChartVersion a) "")
           then l ++ ["--version"; ChartVersion a] else l in
  let '(l, chartName) :=
    if negb (String.eqb (ChartRepoURL a) "")
    then (l ++ ["--repo"; ChartRepoURL a], ChartName a) else (l, chartName) in
  l ++ [chartName].

(** ** The steps of [Generate] *)

(** A call through the function field; calling a nil function panics. *)
Definition callRunHelmCommand (p : HelmChartInflationGeneratorPlugin)
    (arg : list string) : Op (string * option error) :=
  match runHelmCommand p with
  | Some f => f (args p) arg
  | None => panic "invalid memory address or nil pointer dereference"
  end.

Definition checkLocalChart (p : HelmChartInflationGeneratorPlugin) : Op bool :=
  let path := path.Join [ChartHome (args p); ChartName (args p)] in
  ' (s, err) <- os_Stat path ;;
  match err with
  | Some _ => ret false
  | None =>
      match s with
      | Some ModeDir => ret true
      | _ => ret false
      end
  end.

Definition versionArgs : list string := ["version"; "-c"; "--short"].

Definition errNotV3 (v : string) : error :=
  ("this plugin requires helm V3 but got v" ++ v)%string.

(** The pattern is a constant that compiles, so the error branch of
    [regexp.Compile] is never taken; [string(r.Find(stdout))] is the
    empty string when [Find] returns the nil slice. *)
Definition checkHelmVersion (p : HelmChartInflationGeneratorPlugin) : Op (option error) :=
  ' (stdout, err) <- callRunHelmCommand p versionArgs ;;
  match err with
  | Some e => ret (Some e)
  | None =>
      let found := match regexp.Find stdout with Some m => m | None => "" end in
      v <- lift (sliceFrom found 1) ;;
      majorVersion <- lift (index0 (strings.Split v ".")) ;;
      if negb (String.eqb majorVersion "3") then ret (Some (errNotV3 v))
      else ret None
  end.

(** ** [Generate] *)

Definition Generate (p : HelmChartInflationGeneratorPlugin)
  : Op (option ResMap * option error) :=
  defer (os_RemoveAll (tmpDir p))
    (err <- checkHelmVersion p ;;
     match err with
     | Some e => ret (None, Some e)
     | None =>
         local <- checkLocalChart p ;;
         err <- (if negb local
                 then ' (_, err) <- callRunHelmCommand p (getPullCommandArgs p) ;; ret err
                 else ret None) ;;
         match err with
         | Some e => ret (None, Some e)
         | None =>
             ' (stdout, err) <- callRunHelmCommand p (getTemplateCommandArgs p) ;;
             match err with
             | Some e => ret (None, Some e)
             | None =>
                 match h p with
                 | Some hp => ret (NewResMapFromBytes hp stdout)
                 | None => panic "invalid memory address or nil pointer dereference"
                 end
             end
         end
     end).

End Plugin.

(** ** Derived descriptions of the steps, used to state their effects *)

Section Derived.
Context {H : Host}.

Definition logged (w : World) (e : Event) : World :=
  mkWorld (fs w) (environ w) (log w ++ [e]).

Definition isDir (m : option FileMode) : bool :=
  match m with
  | Some ModeDir => true
  | _ => false
  end.

Definition chartDir (p : HelmChartInflationGeneratorPlugin) : string :=
  path.Join [ChartHome (args p); ChartName (args p)].

(** The invocation events of the closure installed by [Config]. *)
Definition execEvent (p : HelmChartInflationGeneratorPlugin) (arg : list string) : Event :=
  EvExec (HelmBin (args p)) arg (helmEnv (args p)).

(** What [checkHelmVersion] does with the output of a successful
    version query. *)
Definition gate (stdout : string) : Outcome (option error) :=
  match regexp.Find stdout with
  | None => Panic "slice bounds out of range"
  | Some m =>
      match m with
      | EmptyString => Panic "slice bounds out of range"
      | String _ v =>
          match strings.Split v "." with
          | major :: _ =>
              if String.eqb major "3" then Val None else Val (Some (errNotV3 v))
          | [] => Panic "index out of range"
          end
      end
  end.

(** The world after the deferred [os.RemoveAll(p.tmpDir)]. *)
Definition cleanup p (w : World) : World :=
  mkWorld (removeAllFS (tmpDir p) (fs w)) (environ w) (log w ++ [EvRemoveAll (tmpDir p)]).

(** One invocation of the renderer by the closure of [Config]. *)
Definition invoke p (arg : list string) (w : World) : ProcResult * World :=
  let r := runProcess (HelmBin (args p)) arg (helmEnv (args p)) (fs w) in
  (fst r, mkWorld (snd r) (environ w) (log w ++ [execEvent p arg])).

(** The Render Driver followed by the cleanup. *)
Definition renderStep p (w : World) : Outcome (option ResMap * option error) * World :=
  let '(r, w') := invoke p (getTemplateCommandArgs p) w in
  (match procErr r with
   | Some _ => Val (None, Some (runFailed (args p) (getTemplateCommandArgs p) (procStderr r)))
   | None =>
       match h p with
       | Some hp => Val (NewResMapFromBytes hp (procStdout r))
       | None => Panic "invalid memory address or nil pointer dereference"
       end
   end, cleanup p w').

(** The Acquisition Planner, the Render Driver and the cleanup. *)
Definition acquireStep p (w1 : World) : Outcome (option ResMap * option error) * World :=
  let w2 := logged w1 (EvStat (chartDir p)) in
  if isDir (lookupFS (fs w1) (chartDir p)) then renderStep p w2
  else
    let '(r, w3) := invoke p (getPullCommandArgs p) w2 in
    match procErr r with
    | Some _ =>
        (Val (None, Some (runFailed (args p) (getPullCommandArgs p) (procStderr r))),
         cleanup p w3)
    | None => renderStep p w3
    end.

End Derived.

(** ** Test doubles for the collaborators

    A renderer that answers the three invocations of the plugin, and a
    host whose decoder yields a fixed record; used to run the model. *)

Record FakeHelm := mkFakeHelm {
  fakeVersion : string;
  fakePullOK : bool;
  fakeTemplateOK : bool
}.

Definition fakeProcess (k : FakeHelm) (bin : string) (arg env : list string) (f : FS)
  : ProcResult * FS :=
  match arg with
  | "version" :: _ => (mkProcResult (fakeVersion k) "" None, f)
  | "pull" :: _ :: _ :: dir :: rest =>
      if fakePullOK k then
        let name := last (strings.Split (last rest "") "/") "" in
        (mkProcResult "" "" None, (path.Join [dir; name], ModeDir) :: f)
      else (mkProcResult "" "Error: chart not found" (Some "exit status 1"), f)
  | "template" :: _ =>
      if fakeTemplateOK k then (mkProcResult "kind: ConfigMap" "" None, f)
      else (mkProcResult "" "Error: render failed" (Some "exit status 1"), f)
  | _ => (mkProcResult "" "Error: unknown command" (Some "exit status 1"), f)
  end.

Definition fakeTmp : string := "/tmp/kustomize-042".

Definition fakeHost (decoded : HelmChartArgs) (k : FakeHelm) : Host :=
  {| ResMap := string;
     yaml_Unmarshal := fun _ _ => (decoded, None);
     NewTmpConfirmedDir := fun f => ((fakeTmp, None), (fakeTmp, ModeDir) :: f);
     runProcess := fakeProcess k |}.

Definition fakeHelpers (decoded : HelmChartArgs) (k : FakeHelm)
  : @PluginHelpers (fakeHost decoded k) :=
  @mkHelpers (fakeHost decoded k) (fun b => (Some b, None)).

Definition helm3 : FakeHelm := mkFakeHelm "v3.2.1+g1234567" true true.
Definition helm2 : FakeHelm := mkFakeHelm "Client: v2.16.1+gbbdfe5e" true true.
Definition helmSilent : FakeHelm := mkFakeHelm "" true true.
Definition helm3NoPull : FakeHelm := mkFakeHelm "v3.2.1" false true.
Definition helm3NoTemplate : FakeHelm := mkFakeHelm "v3.2.1" true false.

Definition nginxArgs : HelmChartArgs :=
  mkArgs "nginx" "" "" "" "" "" "" "" "" "" [].
Definition nginxRepoArgs : HelmChartArgs :=
  mkArgs "nginx" "" "https://charts.example.com" "" "" "" "" "" "" "" [].
Definition nginxProdArgs : HelmChartArgs :=
  mkArgs "nginx" "1.2.3" "" "/srv/charts" "" "" "" "" "" "prod" [].
Definition nginxHomeArgs : HelmChartArgs :=
  mkArgs "nginx" "" "" "/srv/charts" "" "" "" "" "" "" [].

Definition world0 : World :=
  mkWorld [] ["PATH=/usr/bin"; "HOME=/root"] [].

(** The plugin and the world left by a successful [Config], or the zero
    plugin when [Config] does not return normally. *)
Definition configured (decoded : HelmChartArgs) (k : FakeHelm) (w : World)
  : @HelmChartInflationGeneratorPlugin (fakeHost decoded k) * World :=
  match @Config (fakeHost decoded k) (@KustomizePlugin (fakeHost decoded k))
          (fakeHelpers decoded k) "" w with
  | (Val (p, _), w') => (p, w')
  | (Panic _, w') => (@KustomizePlugin (fakeHost decoded k), w')
  end.

Definition emptyHost : Host := fakeHost zeroArgs helm3.
Definition emptyHelpers : @PluginHelpers emptyHost := fakeHelpers zeroArgs helm3.

Definition nginxHost : Host := fakeHost nginxArgs helm3.
Definition nginxPlugin : @HelmChartInflationGeneratorPlugin nginxHost :=
  fst (configured nginxArgs helm3 world0).
Definition nginxWorld : World := snd (configured nginxArgs helm3 world0).

Definition silentHost : Host := fakeHost nginxArgs helmSilent.
Definition silentPlugin : @HelmChartInflationGeneratorPlugin silentHost :=
  fst (configured nginxArgs helmSilent world0).
Definition silentWorld : World := snd (configured nginxArgs helmSilent world0).

(** Worlds in which the chart path below the chart home "/srv/charts"
    is already occupied, by a directory or by a regular file. *)
Definition worldLocal : World :=
  mkWorld [("/srv/charts/nginx"%string, ModeDir)] ["PATH=/usr/bin"%string] [].
Definition worldFile : World :=
  mkWorld [("/srv/charts/nginx"%string, ModeFile)] ["PATH=/usr/bin"%string] [].

Definition prodHost : Host := fakeHost nginxProdArgs helm3.
Definition prodPlugin : @HelmChartInflationGeneratorPlugin prodHost :=
  fst (configured nginxProdArgs helm3 worldLocal).
Definition prodWorld : World := snd (configured nginxProdArgs helm3 worldLocal).

Definition fileHost : Host := fakeHost nginxHomeArgs helm3.
Definition filePlugin : @HelmChartInflationGeneratorPlugin fileHost :=
  fst (configured nginxHomeArgs helm3 worldFile).
Definition fileWorld : World := snd (configured nginxHomeArgs helm3 worldFile).

(** A run does no system work when it leaves filesystem and log as they were. *)
Definition noSystemWork (w w' : World) : Prop := fs w' = fs w /\ log w' = log w.

(** ** Further descriptions and test doubles *)

Section Traces.
Context {H : Host}.

(** The plugin with other values in the three fields that only the
    fetch invocation reads. *)
Definition setPullFields (p : HelmChartInflationGeneratorPlugin)
    (version repoName repoURL : string) : HelmChartInflationGeneratorPlugin :=
  let a := args p in
  mkPlugin (h p) (runHelmCommand p)
    (mkArgs (ChartName a) version repoURL (ChartHome a) repoName
       (HelmBin a) (HelmHome a) (Values a) (ReleaseName a) (ReleaseNamespace a)
       (ExtraArgs a))
    (tmpDir p).

(** The sequences of system calls a run of [Generate] can make. *)
Definition generateTraces (p : HelmChartInflationGeneratorPlugin) : list (list Event) :=
  let V := execEvent p versionArgs in
  let S := EvStat (chartDir p) in
  let P := execEvent p (getPullCommandArgs p) in
  let T := execEvent p (getTemplateCommandArgs p) in
  let R := EvRemoveAll (tmpDir p) in
  [ [V; R]; [V; S; T; R]; [V; S; P; R]; [V; S; P; T; R] ].

(** The five fields [Config] gives a default, and the chart name, are set. *)
Definition resolved (a : HelmChartArgs) : Prop :=
  ChartName a <> ""%string /\ ChartHome a <> ""%string /\ ChartRepoName a <> ""%string /\
  HelmBin a <> ""%string /\ HelmHome a <> ""%string /\ Values a <> ""%string.

End Traces.

(** A host whose decoder rejects every document. *)
Definition badYamlHost : Host :=
  {| ResMap := string;
     yaml_Unmarshal := fun _ a => (a, Some "yaml: unmarshal errors"%string);
     NewTmpConfirmedDir := fun f => ((fakeTmp, None), (fakeTmp, ModeDir) :: f);
     runProcess := fakeProcess helm3 |}.

(** A host that cannot allocate a temporary directory; its decoder
    leaves the chart name empty. *)
Definition noTmpHost : Host :=
  {| ResMap := string;
     yaml_Unmarshal := fun _ a => (a, None);
     NewTmpConfirmedDir := fun f => ((""%string, Some "mkdir /tmp: permission denied"%string), f);
     runProcess := fakeProcess helm3 |}.

(** A host whose decoder sets the chart name only, as a document with
    the single key [chartName] does, and whose allocator avoids a
    directory already there. *)
Definition stickyHost : Host :=
  {| ResMap := string;
     yaml_Unmarshal := fun _ a => (mkArgs "nginx" (ChartVersion a) (ChartRepoURL a)
                                     (ChartHome a) (ChartRepoName a) (HelmBin a) (HelmHome a)
                                     (Values a) (ReleaseName a) (ReleaseNamespace a)
                                     (ExtraArgs a), None);
     NewTmpConfirmedDir := fun f =>
       let name := match lookupFS f fakeTmp with
                   | Some _ => "/tmp/kustomize-043"%string
                   | None => fakeTmp
                   end in
       ((name, None), (name, ModeDir) :: f);
     runProcess := fakeProcess helm3 |}.

Definition stickyHelpers : @PluginHelpers stickyHost :=
  @mkHelpers stickyHost (fun b => (Some b, None)).

Definition stickyPlugin : @HelmChartInflationGeneratorPlugin stickyHost :=
  match @Config stickyHost (@KustomizePlugin stickyHost) stickyHelpers "" world0 with
  | (Val (p, _), _) => p
  | (Panic _, _) => @KustomizePlugin stickyHost
  end.

Definition stickyWorld : World :=
  snd (@Config stickyHost (@KustomizePlugin stickyHost) stickyHelpers "" world0).

(** A configured plugin whose explicit chart home already holds the chart. *)
Definition homeHost : Host := fakeHost nginxHomeArgs helm3.
Definition homePlugin : @HelmChartInflationGeneratorPlugin homeHost :=
  fst (configured nginxHomeArgs helm3 worldLocal).
Definition homeWorld : World := snd (configured nginxHomeArgs helm3 worldLocal).

(** Configured plugins behind a renderer of major version 2 and behind
    one whose fetch fails. *)
Definition v2Host : Host := fakeHost nginxArgs helm2.
Definition v2Plugin : @HelmChartInflationGeneratorPlugin v2Host :=
  fst (configured nginxArgs helm2 world0).
Definition v2World : World := snd (configured nginxArgs helm2 world0).

Definition noPullHost : Host := fakeHost nginxArgs helm3NoPull.
Definition noPullPlugin : @HelmChartInflationGeneratorPlugin noPullHost :=
  fst (configured nginxArgs helm3NoPull world0).
Definition noPullWorld : World := snd (configured nginxArgs helm3NoPull world0).

Definition badYamlHelpers : @PluginHelpers badYamlHost :=
  @mkHelpers badYamlHost (fun b => (Some b, None)).

Definition noTmpHelpers : @PluginHelpers noTmpHost :=
  @mkHelpers noTmpHost (fun b => (Some b, None)).

(** A host whose renderer cannot be started; its processes leave the
    filesystem alone. *)
Definition brokenHost : Host :=
  {| ResMap := string;
     yaml_Unmarshal := fun _ _ => (nginxArgs, None);
     NewTmpConfirmedDir := fun f => ((fakeTmp, None), (fakeTmp, ModeDir) :: f);
     runProcess := fun _ _ _ f =>
       (mkProcResult "" "exec: helm: not found" (Some "exit status 127"%string), f) |}.

Definition brokenHelpers : @PluginHelpers brokenHost :=
  @mkHelpers brokenHost (fun b => (Some b, None)).

Definition brokenPlugin : @HelmChartInflationGeneratorPlugin brokenHost :=
  match @Config brokenHost (@KustomizePlugin brokenHost) brokenHelpers "" worldLocal with
  | (Val (p, _), _) => p
  | (Panic _, _) => @KustomizePlugin brokenHost
  end.

Definition brokenWorld : World :=
  snd (@Config brokenHost (@KustomizePlugin brokenHost) brokenHelpers "" worldLocal).

(** ** Paths of plain elements, and the specification's wording of paths *)

(** The relative path with the elements [es]. *)
Definition relPath (es : list string) : string := String.concat "/" es.

(** A path made of plain elements only, absolute or relative. *)
Definition plainPath (d : string) : Prop :=
  exists es, Forall plainElem es /\ es <> [] /\ (d = absPath es \/ d = relPath es).

(** The values path as the specification words it: chart home, slash,
    chart name, slash, "values.yaml". *)
Definition valuesPathAsWorded (chartHome chartName : string) : string :=
  (chartHome ++ "/" ++ chartName ++ "/values.yaml")%string.

Section Worded.
Context {H : Host}.

(** The render argument list as the specification words it, the chart
    path written chart home, slash, chart name. *)
Definition templateArgsAsWorded (p : HelmChartInflationGeneratorPlugin) : list string :=
  let a := args p in
  ["template"%string]
  ++ (if String.eqb (ReleaseName a) "" then [] else [ReleaseName a])
  ++ [(ChartHome a ++ "/" ++ ChartName a)%string]
  ++ (if String.eqb (ReleaseNamespace a) "" then []
      else ["--namespace"%string; ReleaseNamespace a])
  ++ (if String.eqb (Values a) "" then [] else ["--values"%string; Values a])
  ++ ExtraArgs a.

(** The three invocations a run of [Generate] can make. *)
Definition runArgs (p : HelmChartInflationGeneratorPlugin) : list (list string) :=
  [versionArgs; getPullCommandArgs p; getTemplateCommandArgs p].

(** The system calls of [Generate] on [p] in [w], read off the outcomes
    of the gate, of the stat and of the fetch process. *)
Definition expectedTrace (p : HelmChartInflationGeneratorPlugin) (w : World) : list Event :=
  let V := execEvent p versionArgs in
  let S := EvStat (chartDir p) in
  let P := execEvent p (getPullCommandArgs p) in
  let T := execEvent p (getTemplateCommandArgs p) in
  let R := EvRemoveAll (tmpDir p) in
  match fst (checkHelmVersion p w) with
  | Val None =>
      let w1 := snd (checkHelmVersion p w) in
      if isDir (lookupFS (fs w1) (chartDir p)) then [V; S; T; R]
      else
        match procErr (fst (runProcess (HelmBin (args p)) (getPullCommandArgs p)
                              (helmEnv (args p)) (fs w1))) with
        | Some _ => [V; S; P; R]
        | None => [V; S; P; T; R]
        end
  | _ => [V; R]
  end.

End Worded.

(** A configuration whose chart home is written with a leading dot,
    and one whose chart name climbs out of the chart home. *)
Definition dotArgs : HelmChartArgs :=
  mkArgs "nginx" "" "" "./charts" "" "" "" "" "" "" [].
Definition dotHost : Host := fakeHost dotArgs helm3.
Definition dotPlugin : @HelmChartInflationGeneratorPlugin dotHost :=
  fst (configured dotArgs helm3 world0).

Definition upArgs : HelmChartArgs :=
  mkArgs "../x" "" "" "" "" "" "" "" "" "" [].
Definition upHost : Host := fakeHost upArgs helm3.
Definition upPlugin : @HelmChartInflationGeneratorPlugin upHost :=
  fst (configured upArgs helm3 world0).

(** The plugin with default chart home in a world that holds a chart
    elsewhere, at "/srv/charts/nginx". *)
Definition farPlugin : @HelmChartInflationGeneratorPlugin nginxHost :=
  fst (configured nginxArgs helm3 worldLocal).
Definition farWorld : World := snd (configured nginxArgs helm3 worldLocal).

(** * Properties *)

(** ** The library functions on sample inputs *)

Example Clean_ex1 : path.Clean "a//b/./c/.." = "a/b". Proof. reflexivity. Qed.
Example Clean_ex2 : path.Clean "/../a/b/../../.." = "/". Proof. reflexivity. Qed.
Example Clean_ex3 : path.Clean "../../a/.." = "../..". Proof. reflexivity. Qed.
Example Clean_ex4 : path.Clean "abc/def/../../.." = "..". Proof. reflexivity. Qed.
Example Clean_ex5 : path.Clean "a/.../b/" = "a/.../b". Proof. reflexivity. Qed.
Example Join_ex1 : path.Join ["/tmp/k/"; "nginx"; "values.yaml"] = "/tmp/k/nginx/values.yaml".
Proof. reflexivity. Qed.
Example Join_ex2 : path.Join [""; ""; "a"; ""; "b"] = "a/b". Proof. reflexivity. Qed.
Example Join_ex3 : path.Join [""; ""] = "". Proof. reflexivity. Qed.
Example Split_ex1 : strings.Split "3.2.1" "." = ["3"; "2"; "1"]. Proof. reflexivity. Qed.
Example Split_ex2 : strings.Split "" "." = [""]. Proof. reflexivity. Qed.
Example Split_ex3 : strings.Split ".a." "." = [""; "a"; ""]. Proof. reflexivity. Qed.

Example Find_ex1 : regexp.Find "v3.2.1+g1234" = Some "v3.2.1". Proof. reflexivity. Qed.
Example Find_ex2 : regexp.Find "Client: v2.16.1" = Some "v2.16.1". Proof. reflexivity. Qed.
Example Find_ex3 : regexp.Find "v1v30.2..4" = Some "v30.2". Proof. reflexivity. Qed.
Example Find_ex4 : regexp.Find "v3 v.1 v1. 3.2" = None. Proof. reflexivity. Qed.

(** ** Byte strings *)

Lemma append_assoc_s (a b c : string) : ((a ++ b) ++ c = a ++ b ++ c)%string.
Proof. induction a as [|x a IH]; simpl; [reflexivity | now rewrite IH]. Qed.

Lemma append_nil_r (a : string) : (a ++ "")%string = a.
Proof. induction a as [|x a IH]; simpl; [reflexivity | now rewrite IH]. Qed.

Lemma length_append (a b : string) :
  String.length (a ++ b) = String.length a + String.length b.
Proof. induction a as [|x a IH]; simpl; [reflexivity | now rewrite IH]. Qed.

Lemma substring_all (s : string) : substring 0 (String.length s) s = s.
Proof. induction s as [|x s IH]; simpl; [reflexivity | now rewrite IH]. Qed.

Lemma sliceFrom_1 (c : ascii) (s : string) : sliceFrom (String c s) 1 = Val s.
Proof.
  unfold sliceFrom. simpl. rewrite Nat.sub_0_r, substring_all. reflexivity.
Qed.

Lemma sliceFrom_empty (lo : nat) :
  sliceFrom "" (S lo) = Panic "slice bounds out of range".
Proof. reflexivity. Qed.

Lemma Split_cons (s : string) (sep : ascii) :
  exists x xs, strings.Split s sep = x :: xs.
Proof.
  induction s as [|c s [x [xs IH]]]; simpl; [now eauto|].
  destruct (Ascii.eqb c sep); [now eauto|]. rewrite IH. eauto.
Qed.

(** ** [path.Clean] and [path.Join] on plain absolute paths *)

Section PathLemmas.
Import path.

Lemma atElemEnd_boundary (s : string) : boundary s -> atElemEnd s = true.
Proof. intros [-> | [s' ->]]; reflexivity. Qed.

Lemma atElemEnd_elem (c : ascii) (x : string) :
  notSlash c = true -> atElemEnd (String c x) = false.
Proof. unfold notSlash. simpl. now destruct (isSlash c). Qed.

Lemma cleanLoop_copy (r : bool) (dd : nat) (e s : string) (out : list ascii) :
  allb notSlash e = true ->
  cleanLoop r true dd out (e ++ s) =
  cleanLoop r true dd (rev (list_ascii_of_string e) ++ out) s.
Proof.
  revert out. induction e as [|c e IH]; intros out He; [reflexivity|].
  simpl in He. apply andb_true_iff in He as [Hc He].
  simpl. unfold notSlash in Hc. destruct (isSlash c); [discriminate|].
  rewrite IH by assumption. now rewrite <- app_assoc.
Qed.

Lemma cleanLoop_start (r : bool) (dd : nat) (e s : string) (out : list ascii) :
  plainElem e -> boundary s ->
  cleanLoop r false dd out (e ++ s) =
  cleanLoop r true dd (rev (list_ascii_of_string e) ++ startElem r out) s.
Proof.
  intros (Hne & He & Hd & Hdd) Hs.
  destruct e as [|c e1]; [congruence|].
  simpl in He. apply andb_true_iff in He as [Hc He1].
  assert (Hsl : isSlash c = false) by (unfold notSlash in Hc; now destruct (isSlash c)).
  assert (Hgo : cleanLoop r true dd (c :: startElem r out) (e1 ++ s) =
                cleanLoop r true dd (rev (list_ascii_of_string (String c e1)) ++ startElem r out) s).
  { rewrite cleanLoop_copy by assumption. simpl. now rewrite <- app_assoc. }
  cbn [append cleanLoop]. rewrite Hsl.
  destruct e1 as [|c1 e2].
  - (* one byte, not "." *)
    assert (Hc' : Ascii.eqb c "." = false).
    { destruct (Ascii.eqb_spec c "."); [subst; congruence | reflexivity]. }
    rewrite Hc'. cbn [andb]. cbn [append] in *.
    destruct Hs as [-> | [s' ->]]; exact Hgo.
  - simpl in He1. apply andb_true_iff in He1 as [Hc1 He2].
    cbn [append]. rewrite atElemEnd_elem, andb_false_r by exact Hc1.
    destruct e2 as [|c2 e3].
    + assert (Hcc : Ascii.eqb c "." && Ascii.eqb c1 "." = false).
      { destruct (Ascii.eqb_spec c "."), (Ascii.eqb_spec c1 "."); subst; try reflexivity.
        congruence. }
      rewrite Hcc. cbn [andb]. exact Hgo.
    + simpl in He2. apply andb_true_iff in He2 as [Hc2 _].
      cbn [append]. rewrite atElemEnd_elem, andb_false_r by exact Hc2. exact Hgo.
Qed.

Lemma list_ascii_append (a b : string) :
  list_ascii_of_string (a ++ b) = list_ascii_of_string a ++ list_ascii_of_string b.
Proof. induction a as [|c a IH]; simpl; [reflexivity | now rewrite IH]. Qed.

Lemma cleanLoop_elems (es : list string) (out : list ascii) :
  Forall plainElem es -> es <> [] -> out <> [] ->
  cleanLoop true false 1 out (String.concat "/" es) =
  rev (list_ascii_of_string (String.concat "/" es)) ++ startElem true out.
Proof.
  intros Hes. revert out. induction Hes as [|e es He Hes IH]; intros out Hne Hout; [congruence|].
  destruct es as [|e' es'].
  - simpl. rewrite <- (append_nil_r e) at 1.
    rewrite cleanLoop_start by (auto; now left). reflexivity.
  - change (String.concat "/" (e :: e' :: es'))
      with (e ++ String "/" (String.concat "/" (e' :: es')))%string.
    rewrite cleanLoop_start by (auto; right; eauto).
    cbn [cleanLoop isSlash]. simpl (Ascii.eqb "/" "/").
    rewrite IH; [|discriminate|].
    + rewrite list_ascii_append. cbn [list_ascii_of_string].
      rewrite rev_app_distr. cbn [rev]. rewrite <- !app_assoc.
      f_equal. unfold startElem at 1. cbn [andb negb orb].
      destruct e as [|c e]; [destruct He; congruence|].
      cbn [list_ascii_of_string rev]. rewrite !length_app. cbn [List.length].
      destruct (startElem true out) eqn:Hst.
      * unfold startElem in Hst. destruct out; [congruence|].
        destruct (_ || _) in Hst; discriminate.
      * cbn [List.length].
        replace (_ + _ =? 1) with false; [reflexivity|].
        symmetry. apply Nat.eqb_neq. lia.
    + destruct e as [|c e]; [destruct He; congruence|].
      cbn [list_ascii_of_string rev]. intros Hnil.
      apply app_eq_nil in Hnil as [Hnil _]. apply app_eq_nil in Hnil as [_ Hnil].
      discriminate.
Qed.

Lemma Clean_absPath (es : list string) :
  Forall plainElem es -> es <> [] -> Clean (absPath es) = absPath es.
Proof.
  intros Hes Hne. unfold Clean, absPath. cbn [append].
  change (isSlash "/") with true. cbv iota.
  rewrite cleanLoop_elems by (auto; discriminate).
  cbn [startElem List.length Nat.eqb negb andb orb].
  destruct (rev _ ++ _) eqn:Hout.
  - apply app_eq_nil in Hout as [_ Hout]. discriminate.
  - rewrite <- Hout, rev_app_distr, rev_involutive. cbn [rev app].
    cbn [string_of_list_ascii]. now rewrite string_of_list_ascii_of_string.
Qed.

Lemma absPath_snoc (es : list string) (n : string) :
  es <> [] -> absPath (es ++ [n]) = (absPath es ++ "/" ++ n)%string.
Proof.
  intros Hne. unfold absPath. cbn [append]. f_equal.
  induction es as [|e es IH]; [congruence|].
  destruct es as [|e' es']; [reflexivity|].
  change (String.concat "/" ((e :: e' :: es') ++ [n]))
    with (e ++ "/" ++ String.concat "/" ((e' :: es') ++ [n]))%string.
  rewrite IH by discriminate.
  change (String.concat "/" (e :: e' :: es'))
    with (e ++ "/" ++ String.concat "/" (e' :: es'))%string.
  now rewrite !append_assoc_s.
Qed.

Lemma joinBuf_absPath (es names : list string) :
  es <> [] -> joinBuf (absPath es) names = absPath (es ++ names).
Proof.
  revert es. induction names as [|n names IH]; intros es Hne.
  - now rewrite app_nil_r.
  - cbn [joinBuf]. unfold absPath at 1. cbn [append String.length Nat.eqb negb].
    change (absPath es ++ String "/" n)%string with (absPath es ++ "/" ++ n)%string.
    rewrite <- absPath_snoc by assumption.
    rewrite IH by (destruct es; discriminate).
    now rewrite <- app_assoc.
Qed.

(** On an absolute path of plain elements extended by plain elements,
    [path.Join] is concatenation with slashes. *)
Lemma Join_absPath (es names : list string) :
  Forall plainElem es -> es <> [] -> Forall plainElem names ->
  Join (absPath es :: names) = absPath (es ++ names).
Proof.
  intros Hes Hne Hnames. unfold Join.
  unfold absPath at 1. cbn [fold_right append String.length Nat.add Nat.eqb].
  cbn [joinBuf String.length Nat.eqb negb String.eqb].
  change (String "/" (String.concat "/" es)) with (absPath es).
  change ("" ++ absPath es)%string with (absPath es).
  rewrite joinBuf_absPath by assumption.
  apply Clean_absPath; [apply Forall_app; auto | destruct es; [congruence | discriminate]].
Qed.
End PathLemmas.

(** ** The version pattern *)

Section Pattern.
Import regexp.

Lemma isDigit_dot : isDigit "." = false.
Proof. reflexivity. Qed.

Lemma hasDot_digits (d : string) : allb isDigit d = true -> hasDot d = false.
Proof.
  induction d as [|c d IH]; simpl; [reflexivity|].
  intros Hd. apply andb_true_iff in Hd as [Hc Hd].
  destruct (Ascii.eqb_spec c "."); [subst c; discriminate|]. simpl. auto.
Qed.

Lemma hasDot_append (a b : string) : hasDot (a ++ b) = hasDot a || hasDot b.
Proof.
  induction a as [|c a IH]; simpl; [reflexivity|].
  rewrite IH. now rewrite orb_assoc.
Qed.

Lemma Groups_dot (g : string) : Groups g -> exists c r, g = String "." (String c r) /\ isDigit c = true.
Proof.
  intros Hg. destruct Hg as [d [Hne Hd] | d g [Hne Hd] _];
    (destruct d as [|c d]; [congruence|]); simpl in Hd;
    apply andb_true_iff in Hd as [Hc _]; simpl; eauto.
Qed.

Lemma tailMatch_digits (d x : string) :
  allb isDigit d = true -> tailMatch (d ++ x) = (d ++ tailMatch x)%string.
Proof.
  induction d as [|c d IH]; simpl; [reflexivity|].
  intros Hd. apply andb_true_iff in Hd as [Hc Hd]. rewrite Hc, IH; auto.
Qed.

Lemma tailMatch_group (d x : string) :
  Digits1 d -> tailMatch ("." ++ d ++ x) = ("." ++ d ++ tailMatch x)%string.
Proof.
  intros [Hne Hd]. destruct d as [|c d]; [congruence|].
  pose proof Hd as Hd'. simpl in Hd'. apply andb_true_iff in Hd' as [Hc _].
  change (tailMatch ("." ++ String c d ++ x))
    with (if isDigit c then String "." (tailMatch (String c d ++ x)) else ""%string).
  rewrite Hc, (tailMatch_digits _ x Hd). reflexivity.
Qed.

Lemma tailMatch_groups (g x : string) :
  Groups g -> exists r, tailMatch (g ++ x) = (g ++ r)%string.
Proof.
  induction 1 as [d Hd | d g Hd Hg [r IH]].
  - exists (tailMatch x). rewrite append_assoc_s. apply tailMatch_group, Hd.
  - exists r. rewrite !append_assoc_s. rewrite tailMatch_group by exact Hd.
    now rewrite IH.
Qed.

(** The output of [tailMatch] is a digit run followed by groups. *)
Lemma tailMatch_shape (s : string) :
  exists d g, tailMatch s = (d ++ g)%string /\ allb isDigit d = true /\
              (g = "" \/ Groups g).
Proof.
  induction s as [|c s1 IH]; [exists "", ""; simpl; auto|].
  destruct IH as [d [g [Ht [Hd Hg]]]]. simpl.
  destruct (isDigit c) eqn:Hc.
  - exists (String c d), g. rewrite Ht. simpl. rewrite Hc. auto.
  - destruct (Ascii.eqb_spec c "."); [subst c|exists "", ""; simpl; auto].
    destruct s1 as [|c1 s2]; [exists "", ""; simpl; auto|].
    destruct (isDigit c1) eqn:Hc1; [|exists "", ""; simpl; auto].
    assert (Hne : d <> ""%string).
    { intros ->. simpl in Ht. rewrite Hc1 in Ht. simpl in Ht.
      destruct Hg as [-> | Hg]; [discriminate|].
      apply Groups_dot in Hg as [c' [r [-> _]]].
      injection Ht as -> _. rewrite isDigit_dot in Hc1. discriminate. }
    exists "", ("." ++ d ++ g)%string. rewrite Ht. repeat split; auto.
    right. destruct Hg as [-> | Hg].
    + rewrite append_nil_r. constructor. split; assumption.
    + constructor; [split|]; assumption.
Qed.

Lemma tailMatch_prefix (s : string) : exists post, s = (tailMatch s ++ post)%string.
Proof.
  induction s as [|c s1 [post IH]]; [exists ""; reflexivity|]. simpl.
  destruct (isDigit c).
  - exists post. simpl. now rewrite <- IH.
  - destruct (Ascii.eqb c "."); [|eexists; reflexivity].
    destruct s1 as [|c1 s2]; [eexists; reflexivity|].
    destruct (isDigit c1); [|eexists; reflexivity].
    exists post. cbn [append]. f_equal. exact IH.
Qed.

Lemma matchAt_sound (s m : string) :
  matchAt s = Some m ->
  VersionShaped m /\ (exists v, m = String "v" v) /\
  exists post, s = (m ++ post)%string.
Proof.
  unfold matchAt. destruct s as [|c0 [|c1 s2]]; try discriminate.
  destruct (Ascii.eqb_spec c0 "v"); [subst c0|discriminate]. simpl.
  destruct (isDigit c1) eqn:Hc1; [|discriminate].
  destruct (hasDot (tailMatch s2)) eqn:Hdot; [|discriminate].
  intros [= <-]. destruct (tailMatch_shape s2) as [d [g [Ht [Hd Hg]]]].
  repeat split.
  - exists (String c1 d), g. rewrite Ht. repeat split.
    + discriminate.
    + simpl. now rewrite Hc1.
    + destruct Hg as [-> | Hg]; [|assumption].
      rewrite Ht, append_nil_r, hasDot_digits in Hdot by assumption. discriminate.
  - eauto.
  - destruct (tailMatch_prefix s2) as [post Hp]. exists post. simpl. now rewrite <- Hp.
Qed.

(** At its start position the matcher reaches every match of the
    pattern, and extends it as far as the pattern allows. *)
Lemma matchAt_extends (m post : string) :
  VersionShaped m -> exists r, matchAt (m ++ post) = Some (m ++ r)%string.
Proof.
  intros [d [g [[Hne Hd] [Hg ->]]]].
  destruct d as [|c1 d]; [congruence|]. simpl in Hd.
  apply andb_true_iff in Hd as [Hc1 Hd].
  destruct (tailMatch_groups post Hg) as [r Hr]. exists r.
  rewrite !append_assoc_s. simpl. unfold matchAt. simpl. rewrite Hc1.
  rewrite tailMatch_digits, Hr by assumption.
  rewrite !hasDot_append.
  destruct (Groups_dot Hg) as [c [r' [-> _]]]. simpl.
  now rewrite orb_true_r.
Qed.

Lemma Find_eq (b : string) :
  Find b = match matchAt b with
           | Some m => Some m
           | None => match b with
                     | EmptyString => None
                     | String _ b' => Find b'
                     end
           end.
Proof. destruct b; reflexivity. Qed.

Lemma Find_complete (b : string) : ContainsVersion b -> exists m, Find b = Some m.
Proof.
  intros [pre [m [post [Hm ->]]]].
  induction pre as [|c pre IH]; rewrite Find_eq.
  - destruct (matchAt_extends post Hm) as [r Hr].
    change ("" ++ m ++ post)%string with (m ++ post)%string. rewrite Hr. eauto.
  - destruct (matchAt (String c pre ++ m ++ post)); eauto.
Qed.

(** [Find] returns a match of the pattern, the leftmost one of [b], and
    the longest one at that position. *)
Lemma Find_sound (b m : string) :
  Find b = Some m ->
  VersionShaped m /\ (exists v, m = String "v" v) /\
  exists pre post, b = (pre ++ m ++ post)%string /\
    forall pre1 m1 post1, VersionShaped m1 -> b = (pre1 ++ m1 ++ post1)%string ->
      String.length pre < String.length pre1 \/
      (pre1 = pre /\ String.length m1 <= String.length m).
Proof.
  revert m. induction b as [|c b IH]; intros m; [discriminate|].
  rewrite Find_eq. destruct (matchAt (String c b)) eqn:Hm.
  - intros [= ->]. destruct (matchAt_sound _ Hm) as [Hs [Hv [post Hp]]].
    repeat split; auto. exists "", post. split; [exact Hp|].
    intros pre1 m1 post1 Hm1 Hb. destruct pre1 as [|c1 pre1]; [|left; simpl; lia].
    right. split; [reflexivity|]. simpl in Hb.
    destruct (matchAt_extends post1 Hm1) as [r Hr].
    rewrite <- Hb, Hm in Hr. injection Hr as ->.
    rewrite length_append. lia.
  - intros Hf. destruct (IH _ Hf) as [Hs [Hv [pre [post [Hb Hleft]]]]].
    repeat split; auto. exists (String c pre), post. split; [simpl; now rewrite Hb|].
    intros pre1 m1 post1 Hm1 Hb1. destruct pre1 as [|c1 pre1].
    + exfalso. simpl in Hb1. destruct (matchAt_extends post1 Hm1) as [r Hr].
      rewrite <- Hb1, Hm in Hr. discriminate.
    + simpl in Hb1. injection Hb1 as -> Hb1.
      destruct (Hleft _ _ _ Hm1 Hb1) as [Hlt | [-> Hle]]; [left; simpl; lia|].
      right. auto.
Qed.

Lemma Find_None_iff (b : string) : Find b = None <-> ~ ContainsVersion b.
Proof.
  split.
  - intros Hn Hc. destruct (Find_complete Hc) as [m Hm]. congruence.
  - intros Hc. destruct (Find b) as [m|] eqn:Hf; [|reflexivity].
    exfalso. apply Hc. destruct (Find_sound _ Hf) as [Hs [_ [pre [post [Hb _]]]]].
    exists pre, m, post. auto.
Qed.

End Pattern.

Lemma Split_digits (d x : string) :
  allb isDigit d = true ->
  strings.Split (d ++ String "." x) "." = d :: strings.Split x ".".
Proof.
  induction d as [|c d IH]; simpl; [reflexivity|].
  intros Hd. apply andb_true_iff in Hd as [Hc Hd].
  destruct (Ascii.eqb_spec c "."); [subst c; discriminate|].
  now rewrite IH.
Qed.

(** The first dot-separated field of a matched version is its leading
    digit run. *)
Lemma Split_major (d g : string) :
  regexp.Digits1 d -> regexp.Groups g ->
  index0 (strings.Split (d ++ g) ".") = Val d.
Proof.
  intros [_ Hd] Hg. destruct (Groups_dot Hg) as [c [r [-> _]]].
  now rewrite Split_digits.
Qed.

(** ** The plugin *)

Section Properties.
Context {HST : Host}.

Lemma childEnv_helmCmd (a : HelmChartArgs) (arg : list string) (w : World) :
  childEnv (helmCmd a arg) w = helmEnv a.
Proof. reflexivity. Qed.

Lemma helmCommand_run (a : HelmChartArgs) (arg : list string) (w : World) :
  helmCommand a arg w =
  let r := runProcess (HelmBin a) arg (helmEnv a) (fs w) in
  (Val (procStdout (fst r),
        match procErr (fst r) with
        | Some _ => Some (runFailed a arg (procStderr (fst r)))
        | None => None
        end),
   mkWorld (snd r) (environ w) (log w ++ [EvExec (HelmBin a) arg (helmEnv a)])).
Proof.
  unfold helmCommand, cmd_Run, bind, emit, getFS, putFS, ret. simpl.
  change (childEnv (helmCmd a arg) w) with (helmEnv a).
  destruct (runProcess (HelmBin a) arg (helmEnv a) (fs w)) as [r f']. simpl.
  destruct (procErr r); reflexivity.
Qed.

Lemma checkLocalChart_run (p : HelmChartInflationGeneratorPlugin) (w : World) :
  checkLocalChart p w =
  (Val (isDir (lookupFS (fs w) (chartDir p))), logged w (EvStat (chartDir p))).
Proof.
  unfold checkLocalChart, os_Stat, bind, emit, getFS, ret, chartDir, logged. simpl.
  destruct (lookupFS (fs w) _) as [[|]|]; reflexivity.
Qed.

Lemma os_RemoveAll_run (name : string) (w : World) :
  os_RemoveAll name w =
  (Val None, mkWorld (removeAllFS name (fs w)) (environ w) (log w ++ [EvRemoveAll name])).
Proof. reflexivity. Qed.

Lemma removeAllFS_gone (dir name : string) (f : FS) :
  dir <> ""%string -> within dir name = true -> lookupFS (removeAllFS dir f) name = None.
Proof.
  intros Hne Hin. unfold removeAllFS.
  destruct (String.eqb_spec dir ""); [contradiction|].
  induction f as [|[q m] f IH]; simpl; [reflexivity|].
  destruct (within dir q) eqn:Hq; simpl; [exact IH|].
  destruct (String.eqb_spec q name); [congruence | exact IH].
Qed.

Lemma removeAllFS_kept (dir name : string) (f : FS) :
  within dir name = false -> lookupFS (removeAllFS dir f) name = lookupFS f name.
Proof.
  intros Hout. unfold removeAllFS.
  destruct (String.eqb dir ""); [reflexivity|].
  induction f as [|[q m] f IH]; simpl; [reflexivity|].
  destruct (within dir q) eqn:Hq; simpl.
  - destruct (String.eqb_spec q name); [congruence | exact IH].
  - destruct (String.eqb q name); [reflexivity | exact IH].
Qed.

(** *** The Version Gate *)

Lemma checkHelmVersion_run p (w w1 : World) (stdout : string) :
  callRunHelmCommand p versionArgs w = (Val (stdout, None), w1) ->
  checkHelmVersion p w = (gate stdout, w1).
Proof.
  intros Hrun. unfold checkHelmVersion, bind, gate. rewrite Hrun.
  destruct (regexp.Find stdout) as [[|c v]|]; try reflexivity.
  rewrite sliceFrom_1. unfold lift.
  destruct (strings.Split v ".") as [|major rest]; [reflexivity|]. simpl.
  destruct (String.eqb major "3"); reflexivity.
Qed.

Lemma checkHelmVersion_run_error p (w w1 : World) (stdout : string) (e : error) :
  callRunHelmCommand p versionArgs w = (Val (stdout, Some e), w1) ->
  checkHelmVersion p w = (Val (Some e), w1).
Proof. intros Hrun. unfold checkHelmVersion, bind. now rewrite Hrun. Qed.

Lemma gate_no_match (stdout : string) :
  ~ regexp.ContainsVersion stdout -> gate stdout = Panic "slice bounds out of range".
Proof.
  intros Hc. apply Find_None_iff in Hc. unfold gate. now rewrite Hc.
Qed.

Lemma gate_match (stdout : string) :
  regexp.ContainsVersion stdout ->
  exists major g,
    regexp.Digits1 major /\ regexp.Groups g /\
    regexp.Find stdout = Some ("v" ++ major ++ g)%string /\
    gate stdout = if String.eqb major "3" then Val None
                  else Val (Some (errNotV3 (major ++ g))).
Proof.
  intros Hc. destruct (Find_complete Hc) as [m Hf].
  destruct (Find_sound _ Hf) as [[d [g [Hd [Hg ->]]]] _].
  exists d, g. repeat split; try assumption; try apply Hd.
  unfold gate. rewrite Hf. cbn [append].
  pose proof (Split_major Hd Hg) as Hs.
  destruct (strings.Split (d ++ g) ".") as [|major rest]; [discriminate|].
  injection Hs as ->. reflexivity.
Qed.

(** *** [Config] *)

Lemma Config_run p (hp : PluginHelpers) (config : string) (w : World)
    (a : HelmChartArgs) (tmp : string) (f' : FS) :
  yaml_Unmarshal config (args p) = (a, None) ->
  NewTmpConfirmedDir (fs w) = ((tmp, None), f') ->
  Config p hp config w =
  (Val (if String.eqb (ChartName a) ""
        then (mkPlugin (Some hp) (runHelmCommand p) a tmp, Some errNoChartName)
        else (mkPlugin (Some hp) (Some helmCommand) (applyDefaults tmp a) tmp, None)),
   mkWorld f' (environ w) (log w ++ [EvTmpDir])).
Proof.
  intros Hy Ht. unfold Config. simpl. rewrite Hy.
  unfold filesys_NewTmpConfirmedDir, bind, emit, getFS, putFS, ret. simpl.
  rewrite Ht. simpl. destruct (String.eqb (ChartName a) ""); reflexivity.
Qed.

Lemma Config_decode_error p (hp : PluginHelpers) (config : string) (w : World)
    (a : HelmChartArgs) (e : error) :
  yaml_Unmarshal config (args p) = (a, Some e) ->
  Config p hp config w = (Val (mkPlugin (Some hp) (runHelmCommand p) a (tmpDir p), Some e), w).
Proof. intros Hy. unfold Config. simpl. now rewrite Hy. Qed.

Lemma Config_tmpdir_error p (hp : PluginHelpers) (config : string) (w : World)
    (a : HelmChartArgs) (tmp : string) (e : error) (f' : FS) :
  yaml_Unmarshal config (args p) = (a, None) ->
  NewTmpConfirmedDir (fs w) = ((tmp, Some e), f') ->
  Config p hp config w =
  (Val (mkPlugin (Some hp) (runHelmCommand p) a (tmpDir p), Some e),
   mkWorld f' (environ w) (log w ++ [EvTmpDir])).
Proof.
  intros Hy Ht. unfold Config. simpl. rewrite Hy.
  unfold filesys_NewTmpConfirmedDir, bind, emit, getFS, putFS, ret. simpl.
  now rewrite Ht.
Qed.

(** Every default is applied only to an unset field, and the values
    path is derived from the chart home as resolved before it. *)
Lemma applyDefaults_fields (tmp : string) (a : HelmChartArgs) :
  let a' := applyDefaults tmp a in
  ChartHome a' = (if String.eqb (ChartHome a) "" then path.Join [tmp; "chart"] else ChartHome a) /\
  ChartRepoName a' = (if String.eqb (ChartRepoName a) "" then "stable" else ChartRepoName a) /\
  HelmBin a' = (if String.eqb (HelmBin a) "" then "helm" else HelmBin a) /\
  HelmHome a' = (if String.eqb (HelmHome a) "" then path.Join [tmp; ".helm"] else HelmHome a) /\
  Values a' = (if String.eqb (Values a) ""
               then path.Join [ChartHome a'; ChartName a; "values.yaml"] else Values a) /\
  ChartName a' = ChartName a /\ ChartVersion a' = ChartVersion a /\
  ChartRepoURL a' = ChartRepoURL a /\ ReleaseName a' = ReleaseName a /\
  ReleaseNamespace a' = ReleaseNamespace a /\ ExtraArgs a' = ExtraArgs a.
Proof.
  destruct a as [n v u ch rn hb hh vals rel ns ex]. unfold applyDefaults. simpl.
  destruct (String.eqb ch ""); simpl;
    destruct (String.eqb rn ""); simpl;
    destruct (String.eqb hb ""); simpl;
    destruct (String.eqb hh ""); simpl;
    destruct (String.eqb vals ""); simpl; repeat split; reflexivity.
Qed.

(** *** [Generate] *)

Lemma callRunHelmCommand_run p (arg : list string) (w : World) :
  runHelmCommand p = Some helmCommand ->
  callRunHelmCommand p arg w =
  (Val (procStdout (fst (invoke p arg w)),
        match procErr (fst (invoke p arg w)) with
        | Some _ => Some (runFailed (args p) arg (procStderr (fst (invoke p arg w))))
        | None => None
        end), snd (invoke p arg w)).
Proof.
  intros Hc. unfold callRunHelmCommand. rewrite Hc, helmCommand_run. reflexivity.
Qed.

Lemma Generate_cleanup p (w : World) :
  exists r wb, Generate p w = (r, cleanup p wb).
Proof.
  unfold Generate, defer.
  match goal with |- context [let '(_, _) := ?b w in _] => destruct (b w) as [r wb] end.
  exists r, wb. reflexivity.
Qed.

Lemma Generate_gate_failed p (w w1 : World) (e : error) :
  checkHelmVersion p w = (Val (Some e), w1) ->
  Generate p w = (Val (None, Some e), cleanup p w1).
Proof. intros Hg. unfold Generate, defer, bind. rewrite Hg. reflexivity. Qed.

Lemma Generate_gate_panicked p (w w1 : World) (msg : string) :
  checkHelmVersion p w = (Panic msg, w1) ->
  Generate p w = (Panic msg, cleanup p w1).
Proof. intros Hg. unfold Generate, defer, bind. rewrite Hg. reflexivity. Qed.

Lemma Generate_gate_passed p (w w1 : World) :
  runHelmCommand p = Some helmCommand ->
  checkHelmVersion p w = (Val None, w1) ->
  Generate p w = acquireStep p w1.
Proof.
  intros Hc Hg. unfold Generate, defer, bind. rewrite Hg, checkLocalChart_run.
  unfold acquireStep, renderStep.
  destruct (isDir (lookupFS (fs w1) (chartDir p)));
    cbv beta iota delta [ret negb panic].
  - rewrite callRunHelmCommand_run by exact Hc.
    destruct (invoke p (getTemplateCommandArgs p) _) as [r w3]. cbn [fst snd].
    destruct (procErr r); [reflexivity|]. destruct (h p); reflexivity.
  - rewrite callRunHelmCommand_run by exact Hc.
    destruct (invoke p (getPullCommandArgs p) _) as [r w3]. cbn [fst snd].
    destruct (procErr r); [reflexivity|].
    rewrite callRunHelmCommand_run by exact Hc.
    destruct (invoke p (getTemplateCommandArgs p) _) as [r' w4]. cbn [fst snd].
    destruct (procErr r'); [reflexivity|]. destruct (h p); reflexivity.
Qed.

Lemma renderStep_log p (w : World) :
  log (snd (renderStep p w)) =
  log w ++ [execEvent p (getTemplateCommandArgs p); EvRemoveAll (tmpDir p)].
Proof. unfold renderStep, invoke, cleanup. simpl. now rewrite <- app_assoc. Qed.

Lemma pull_head p : hd ""%string (getPullCommandArgs p) = "pull"%string.
Proof.
  unfold getPullCommandArgs.
  destruct (negb (String.eqb (ChartVersion (args p)) ""));
    destruct (negb (String.eqb (ChartRepoURL (args p)) "")); reflexivity.
Qed.

Lemma template_head p : hd ""%string (getTemplateCommandArgs p) = "template"%string.
Proof.
  unfold getTemplateCommandArgs.
  destruct (negb (String.eqb (ReleaseName (args p)) ""));
    destruct (negb (String.eqb (ReleaseNamespace (args p)) ""));
    destruct (negb (String.eqb (Values (args p)) "")); reflexivity.
Qed.

Lemma acquireStep_log p (w1 : World) :
  exists evs,
    log (snd (acquireStep p w1)) =
    log w1 ++ EvStat (chartDir p) ::
      (if isDir (lookupFS (fs w1) (chartDir p))
       then [execEvent p (getTemplateCommandArgs p); EvRemoveAll (tmpDir p)]
       else execEvent p (getPullCommandArgs p) :: evs).
Proof.
  unfold acquireStep. destruct (isDir (lookupFS (fs w1) (chartDir p))).
  - exists []. rewrite renderStep_log. unfold logged. simpl. now rewrite <- app_assoc.
  - destruct (invoke p (getPullCommandArgs p) _) as [r w3] eqn:Hi.
    assert (Hw3 : log w3 = log w1 ++ [EvStat (chartDir p); execEvent p (getPullCommandArgs p)]).
    { unfold invoke in Hi. injection Hi as _ <-. unfold logged. simpl.
      now rewrite <- app_assoc. }
    destruct (procErr r).
    + exists [EvRemoveAll (tmpDir p)]. unfold cleanup. simpl. rewrite Hw3.
      now rewrite <- app_assoc.
    + exists [execEvent p (getTemplateCommandArgs p); EvRemoveAll (tmpDir p)].
      rewrite renderStep_log, Hw3. now rewrite <- app_assoc.
Qed.

(** The renderer is started with [helmEnv] whatever the environment of
    the calling process is. *)
Lemma helmCommand_log (a : HelmChartArgs) (arg : list string) (w : World) :
  log (snd (helmCommand a arg w)) = log w ++ [EvExec (HelmBin a) arg (helmEnv a)].
Proof. rewrite helmCommand_run. reflexivity. Qed.

(** *** Paths written out

    With a temporary directory that is an absolute path of plain
    elements and a chart name that is a plain element, the joins of
    [Config] are concatenations with slashes. *)

Lemma plainElem_chart : plainElem "chart".
Proof. repeat split; discriminate. Qed.

Lemma plainElem_helm : plainElem ".helm".
Proof. repeat split; discriminate. Qed.

Lemma plainElem_values : plainElem "values.yaml".
Proof. repeat split; discriminate. Qed.

Lemma applyDefaults_literal (es : list string) (a : HelmChartArgs) :
  Forall plainElem es -> es <> [] -> plainElem (ChartName a) ->
  ChartHome a = ""%string -> HelmHome a = ""%string -> Values a = ""%string ->
  let a' := applyDefaults (absPath es) a in
  ChartHome a' = (absPath es ++ "/chart")%string /\
  HelmHome a' = (absPath es ++ "/.helm")%string /\
  Values a' = (absPath es ++ "/chart/" ++ ChartName a ++ "/values.yaml")%string /\
  path.Join [ChartHome a'; ChartName a'] = (absPath es ++ "/chart/" ++ ChartName a)%string.
Proof.
  intros Hes Hne Hn Hch Hhh Hv.
  destruct (applyDefaults_fields (absPath es) a) as (E1 & _ & _ & E4 & E5 & E6 & _).
  rewrite Hch in E1. rewrite Hhh in E4. rewrite Hv in E5. simpl in E1, E4, E5.
  assert (Hes' : Forall plainElem (es ++ ["chart"%string])).
  { apply Forall_app. split; [assumption|]. constructor; [apply plainElem_chart | constructor]. }
  assert (Hne' : es ++ ["chart"%string] <> []) by (destruct es; discriminate).
  cbv zeta. rewrite E5, E6, E1, E4.
  rewrite !Join_absPath; try assumption;
    repeat (constructor; try assumption);
    try apply plainElem_chart; try apply plainElem_helm; try apply plainElem_values.
  - apply (absPath_snoc "chart" Hne).
  - apply (absPath_snoc ".helm" Hne).
  - replace ((es ++ ["chart"%string]) ++ [ChartName a; "values.yaml"%string])
      with (((es ++ ["chart"%string]) ++ [ChartName a]) ++ ["values.yaml"%string])
      by (now rewrite <- !app_assoc).
    rewrite !absPath_snoc by (try assumption; destruct es; discriminate).
    now rewrite !append_assoc_s.
  - rewrite !absPath_snoc by assumption. now rewrite !append_assoc_s.
Qed.

Corollary Config_default_values_literal p (hp : PluginHelpers) (config : string)
    (w : World) (a : HelmChartArgs) (es : list string) (f' : FS) :
  yaml_Unmarshal config (args p) = (a, None) ->
  NewTmpConfirmedDir (fs w) = ((absPath es, None), f') ->
  Forall plainElem es -> es <> [] -> plainElem (ChartName a) ->
  ChartHome a = ""%string -> HelmHome a = ""%string -> Values a = ""%string ->
  exists p',
    fst (Config p hp config w) = Val (p', None) /\
    ChartHome (args p') = (absPath es ++ "/chart")%string /\
    Values (args p') =
      (absPath es ++ "/chart/" ++ ChartName a ++ "/values.yaml")%string.
Proof.
  intros Hy Ht Hes Hne Hn Hch Hhh Hv. rewrite (Config_run _ _ _ _ Hy Ht).
  assert (Hn1 : String.eqb (ChartName a) "" = false) by (apply String.eqb_neq, Hn).
  rewrite Hn1. eexists. split; [reflexivity|].
  destruct (@applyDefaults_literal es a) as (E1 & _ & E3 & _); auto.
Qed.

(** *** The claims *)

(** C1 (as amended).  When the decoded chart name is empty and both the
    decoding and the allocation of the temporary directory succeeded,
    [Config] fails with the missing-chart-name error; the allocation is
    the only system call made, no default is applied and the function
    field stays as it was. *)
Theorem Config_empty_name_after_allocation p (hp : PluginHelpers) (config : string)
    (w : World) (a : HelmChartArgs) (tmp : string) (f' : FS) :
  yaml_Unmarshal config (args p) = (a, None) ->
  ChartName a = ""%string ->
  NewTmpConfirmedDir (fs w) = ((tmp, None), f') ->
  Config p hp config w =
  (Val (mkPlugin (Some hp) (runHelmCommand p) a tmp, Some errNoChartName),
   mkWorld f' (environ w) (log w ++ [EvTmpDir])).
Proof.
  intros Hy Hn Ht. rewrite (Config_run _ _ _ _ Hy Ht), Hn. reflexivity.
Qed.

(** Supporting C4: with no substring of the version shape in the output
    of a successful query, [checkHelmVersion] does not return at all:
    slicing the empty match panics. *)
Lemma checkHelmVersion_no_match_panics p (w w1 : World) (stdout : string) :
  callRunHelmCommand p versionArgs w = (Val (stdout, None), w1) ->
  ~ regexp.ContainsVersion stdout ->
  checkHelmVersion p w = (Panic "slice bounds out of range", w1).
Proof.
  intros Hrun Hc. rewrite (checkHelmVersion_run _ _ Hrun), gate_no_match; auto.
Qed.

(** C5.  Once the Version Gate has passed, leaving the world [w1], the
    fetch invocation is among the system calls that follow exactly when
    no directory is at the chart path in [w1]; when a directory is
    there, the only renderer invocation that follows is the template one. *)
Theorem Generate_fetch_iff_no_directory p (w w1 : World) :
  runHelmCommand p = Some helmCommand ->
  checkHelmVersion p w = (Val None, w1) ->
  exists evs,
    log (snd (Generate p w)) = log w1 ++ evs /\
    (In (execEvent p (getPullCommandArgs p)) evs <->
     isDir (lookupFS (fs w1) (chartDir p)) = false) /\
    (isDir (lookupFS (fs w1) (chartDir p)) = true ->
     forall bin arg env, In (EvExec bin arg env) evs -> hd ""%string arg = "template"%string).
Proof.
  intros Hc Hg. rewrite (@Generate_gate_passed p w w1 Hc Hg).
  destruct (acquireStep_log p w1) as [evs Hl]. rewrite Hl.
  destruct (isDir (lookupFS (fs w1) (chartDir p))); eexists; (split; [reflexivity|]).
  - split; [split; [|discriminate]|].
    + intros [Hin | [Hin | [Hin | []]]]; try discriminate.
      unfold execEvent in Hin. injection Hin as Hin.
      pose proof (pull_head p) as Hp. rewrite <- Hin, template_head in Hp. discriminate.
    + intros _ bin arg env [Hin | [Hin | [Hin | []]]]; try discriminate.
      unfold execEvent in Hin. injection Hin as _ <- _. apply template_head.
  - split; [split; [reflexivity | intros _; right; left; reflexivity] | discriminate].
Qed.

(** C6.  The fetch argument list. *)
Theorem getPullCommandArgs_exact p :
  getPullCommandArgs p =
  ["pull"; "--untar"; "--untardir"; ChartHome (args p)]%string
  ++ (if String.eqb (ChartVersion (args p)) "" then []
      else ["--version"%string; ChartVersion (args p)])
  ++ (if String.eqb (ChartRepoURL (args p)) "" then []
      else ["--repo"%string; ChartRepoURL (args p)])
  ++ [if String.eqb (ChartRepoURL (args p)) ""
      then (ChartRepoName (args p) ++ "/" ++ ChartName (args p))%string
      else ChartName (args p)].
Proof.
  unfold getPullCommandArgs.
  destruct (String.eqb (ChartVersion (args p)) "");
    destruct (String.eqb (ChartRepoURL (args p)) ""); reflexivity.
Qed.

(** C8.  Whatever the plugin, the world, the function stored in
    [runHelmCommand] and the way [Generate] ends (a result, an error of
    any step, a panic), the last system call of [Generate] is the
    recursive removal of the working directory, and nothing at or below
    that directory is left in the filesystem. *)
Theorem Generate_removes_tmpDir p (w : World) :
  tmpDir p <> ""%string ->
  (exists l, log (snd (Generate p w)) = l ++ [EvRemoveAll (tmpDir p)]) /\
  (forall name, within (tmpDir p) name = true ->
                lookupFS (fs (snd (Generate p w))) name = None).
Proof.
  intros Hne. destruct (Generate_cleanup p w) as [r [wb Hgen]]. rewrite Hgen. split.
  - exists (log wb). reflexivity.
  - intros name Hin. apply removeAllFS_gone; assumption.
Qed.

(** C10.  When the Version Gate has passed and the chart path is
    occupied by something that is not a directory, the local-chart check
    answers false and the next system call after the check is the fetch
    invocation. *)
Theorem Generate_fetches_over_non_directory p (w w1 : World) :
  runHelmCommand p = Some helmCommand ->
  checkHelmVersion p w = (Val None, w1) ->
  lookupFS (fs w1) (chartDir p) = Some ModeFile ->
  fst (checkLocalChart p w1) = Val false /\
  exists evs,
    log (snd (Generate p w)) =
    log w1 ++ [EvStat (chartDir p); execEvent p (getPullCommandArgs p)] ++ evs.
Proof.
  intros Hc Hg Hf. rewrite checkLocalChart_run, Hf. split; [reflexivity|].
  rewrite (@Generate_gate_passed p w w1 Hc Hg).
  destruct (acquireStep_log p w1) as [evs Hl]. rewrite Hl, Hf. simpl.
  exists evs. reflexivity.
Qed.

End Properties.

(** ** Runs of the model *)

Lemma ContainsVersion_Find (b : string) :
  (exists m, regexp.Find b = Some m) <-> regexp.ContainsVersion b.
Proof.
  split.
  - intros [m Hf]. destruct (Find_sound _ Hf) as [Hs [_ [pre [post [Hb _]]]]].
    exists pre, m, post. auto.
  - apply Find_complete.
Qed.

(** C1, the claim as stated fails: with an empty chart name [Config]
    returns the missing-chart-name error, but only after the temporary
    directory has been allocated. *)
Lemma Config_empty_name_allocates_first :
  ChartName (fst (@yaml_Unmarshal emptyHost "" zeroArgs)) = ""%string /\
  (exists p', fst (@Config emptyHost (@KustomizePlugin emptyHost) emptyHelpers "" world0)
              = Val (p', Some errNoChartName)) /\
  log (snd (@Config emptyHost (@KustomizePlugin emptyHost) emptyHelpers "" world0))
    = [EvTmpDir] /\
  lookupFS (fs (snd (@Config emptyHost (@KustomizePlugin emptyHost) emptyHelpers "" world0)))
    fakeTmp = Some ModeDir /\
  ~ noSystemWork world0
      (snd (@Config emptyHost (@KustomizePlugin emptyHost) emptyHelpers "" world0)).
Proof.
  split; [reflexivity|]. split; [eexists; reflexivity|].
  split; [reflexivity|]. split; [reflexivity|].
  intros [Hfs _]. discriminate Hfs.
Qed.

Lemma Config_empty_name_after_allocation_witness :
  @yaml_Unmarshal emptyHost "" (args (@KustomizePlugin emptyHost)) = (zeroArgs, None) /\
  ChartName zeroArgs = ""%string /\
  @NewTmpConfirmedDir emptyHost (fs world0) = ((fakeTmp, None), [(fakeTmp, ModeDir)]) /\
  @Config emptyHost (@KustomizePlugin emptyHost) emptyHelpers "" world0 =
  (Val (mkPlugin (Some emptyHelpers) None zeroArgs fakeTmp, Some errNoChartName),
   mkWorld [(fakeTmp, ModeDir)] (environ world0) (log world0 ++ [EvTmpDir])).
Proof.
  split; [reflexivity|]. split; [reflexivity|]. split; [reflexivity|].
  apply (@Config_empty_name_after_allocation emptyHost (@KustomizePlugin emptyHost)
           emptyHelpers ""%string world0 zeroArgs fakeTmp [(fakeTmp, ModeDir)]);
    reflexivity.
Defined.

(** C2, the code at a caller environment holding PATH and HOME: the
    child of the version query is started with the three renderer
    variables only. *)
Theorem runHelmCommand_env_drops_caller_env :
  environ nginxWorld = ["PATH=/usr/bin"; "HOME=/root"]%string /\
  log (snd (callRunHelmCommand nginxPlugin versionArgs nginxWorld)) =
    log nginxWorld ++
    [EvExec "helm" ["version"; "-c"; "--short"]
       ["HELM_CONFIG_HOME=/tmp/kustomize-042/.helm";
        "HELM_CACHE_HOME=/tmp/kustomize-042/.helm/.cache";
        "HELM_DATA_HOME=/tmp/kustomize-042/.helm/.data"]]%string /\
  ~ In "PATH=/usr/bin"%string (childEnv (helmCmd (args nginxPlugin) versionArgs) nginxWorld).
Proof.
  split; [reflexivity|]. split; [reflexivity|].
  simpl. intros [Hin | [Hin | [Hin | []]]]; discriminate.
Qed.

(** C4, the code at an empty output of the version query: the gate
    panics, and so does [Generate] (after its deferred cleanup). *)
Theorem checkHelmVersion_panics_on_empty_output :
  fst (callRunHelmCommand silentPlugin versionArgs silentWorld) = Val (""%string, None) /\
  ~ regexp.ContainsVersion "" /\
  fst (checkHelmVersion silentPlugin silentWorld) = Panic "slice bounds out of range" /\
  fst (Generate silentPlugin silentWorld) = Panic "slice bounds out of range".
Proof.
  split; [reflexivity|]. split; [|split; reflexivity].
  apply Find_None_iff. reflexivity.
Qed.

Lemma Generate_fetch_iff_no_directory_witness :
  runHelmCommand nginxPlugin = Some (@helmCommand nginxHost) /\
  checkHelmVersion nginxPlugin nginxWorld =
    (Val None, snd (checkHelmVersion nginxPlugin nginxWorld)) /\
  exists evs,
    log (snd (Generate nginxPlugin nginxWorld)) =
      log (snd (checkHelmVersion nginxPlugin nginxWorld)) ++ evs /\
    (In (execEvent nginxPlugin (getPullCommandArgs nginxPlugin)) evs <->
     isDir (lookupFS (fs (snd (checkHelmVersion nginxPlugin nginxWorld)))
              (chartDir nginxPlugin)) = false) /\
    (isDir (lookupFS (fs (snd (checkHelmVersion nginxPlugin nginxWorld)))
              (chartDir nginxPlugin)) = true ->
     forall bin arg env, In (EvExec bin arg env) evs -> hd ""%string arg = "template"%string).
Proof.
  split; [reflexivity|]. split; [reflexivity|].
  apply (@Generate_fetch_iff_no_directory nginxHost nginxPlugin nginxWorld
           (snd (checkHelmVersion nginxPlugin nginxWorld))); reflexivity.
Defined.

Lemma Generate_removes_tmpDir_witness :
  tmpDir nginxPlugin <> ""%string /\
  (exists l, log (snd (Generate nginxPlugin nginxWorld)) =
             l ++ [EvRemoveAll (tmpDir nginxPlugin)]) /\
  (forall name, within (tmpDir nginxPlugin) name = true ->
                lookupFS (fs (snd (Generate nginxPlugin nginxWorld))) name = None).
Proof.
  assert (Hne : tmpDir nginxPlugin <> ""%string) by (simpl; discriminate).
  split; [exact Hne|].
  apply (@Generate_removes_tmpDir nginxHost nginxPlugin nginxWorld Hne).
Defined.

Lemma Generate_fetches_over_non_directory_witness :
  runHelmCommand filePlugin = Some (@helmCommand fileHost) /\
  checkHelmVersion filePlugin fileWorld =
    (Val None, snd (checkHelmVersion filePlugin fileWorld)) /\
  lookupFS (fs (snd (checkHelmVersion filePlugin fileWorld))) (chartDir filePlugin)
    = Some ModeFile /\
  fst (checkLocalChart filePlugin (snd (checkHelmVersion filePlugin fileWorld)))
    = Val false /\
  exists evs,
    log (snd (Generate filePlugin fileWorld)) =
    log (snd (checkHelmVersion filePlugin fileWorld))
    ++ [EvStat (chartDir filePlugin); execEvent filePlugin (getPullCommandArgs filePlugin)]
    ++ evs.
Proof.
  split; [reflexivity|]. split; [reflexivity|]. split; [reflexivity|].
  apply (@Generate_fetches_over_non_directory fileHost filePlugin fileWorld
           (snd (checkHelmVersion filePlugin fileWorld))); reflexivity.
Defined.

(** The scenarios of the specification, run on the model. *)

Example scenario_repo_url :
  getPullCommandArgs (fst (configured nginxRepoArgs helm3 world0)) =
  ["pull"; "--untar"; "--untardir"; "/tmp/kustomize-042/chart";
   "--repo"; "https://charts.example.com"; "nginx"]%string.
Proof. reflexivity. Qed.

Example scenario_local_chart :
  fst (Generate prodPlugin prodWorld) = Val (Some "kind: ConfigMap"%string, None) /\
  log (snd (Generate prodPlugin prodWorld)) =
  [EvTmpDir;
   execEvent prodPlugin versionArgs;
   EvStat "/srv/charts/nginx";
   execEvent prodPlugin
     ["template"; "/srv/charts/nginx"; "--namespace"; "prod";
      "--values"; "/srv/charts/nginx/values.yaml"];
   EvRemoveAll "/tmp/kustomize-042"]%string /\
  lookupFS (fs (snd (Generate prodPlugin prodWorld))) "/srv/charts/nginx" = Some ModeDir.
Proof. repeat split; reflexivity. Qed.

Example scenario_file_at_chart_path :
  log (snd (Generate filePlugin fileWorld)) =
  [EvTmpDir;
   execEvent filePlugin versionArgs;
   EvStat "/srv/charts/nginx";
   execEvent filePlugin
     ["pull"; "--untar"; "--untardir"; "/srv/charts"; "stable/nginx"];
   execEvent filePlugin
     ["template"; "/srv/charts/nginx"; "--values"; "/srv/charts/nginx/values.yaml"];
   EvRemoveAll "/tmp/kustomize-042"]%string.
Proof. reflexivity. Qed.

(** The exit paths of [Generate]: a gate failure, a panic of the gate, a
    failed fetch and a failed render all end with the removal of the
    working directory. *)

Example exit_gate_failure :
  let r := @Generate (fakeHost nginxArgs helm2)
             (fst (configured nginxArgs helm2 world0))
             (snd (configured nginxArgs helm2 world0)) in
  fst r = Val (None, Some "this plugin requires helm V3 but got v2.16.1"%string) /\
  last (log (snd r)) EvTmpDir = EvRemoveAll fakeTmp /\
  lookupFS (fs (snd r)) fakeTmp = None.
Proof. repeat split; reflexivity. Qed.

Example exit_gate_panic :
  last (log (snd (Generate silentPlugin silentWorld))) EvTmpDir = EvRemoveAll fakeTmp /\
  lookupFS (fs (snd (Generate silentPlugin silentWorld))) fakeTmp = None.
Proof. split; reflexivity. Qed.

Example exit_fetch_failure :
  let r := @Generate (fakeHost nginxArgs helm3NoPull)
             (fst (configured nginxArgs helm3NoPull world0))
             (snd (configured nginxArgs helm3NoPull world0)) in
  fst r = Val (None,
               Some ("Error: chart not found: failed to run command helm pull "
                     ++ "--untar --untardir /tmp/kustomize-042/chart stable/nginx")%string) /\
  last (log (snd r)) EvTmpDir = EvRemoveAll fakeTmp /\
  lookupFS (fs (snd r)) fakeTmp = None.
Proof. repeat split; reflexivity. Qed.

Example exit_render_failure :
  let r := @Generate (fakeHost nginxArgs helm3NoTemplate)
             (fst (configured nginxArgs helm3NoTemplate world0))
             (snd (configured nginxArgs helm3NoTemplate world0)) in
  (exists e, fst r = Val (None, Some e)) /\
  last (log (snd r)) EvTmpDir = EvRemoveAll fakeTmp /\
  lookupFS (fs (snd r)) fakeTmp = None /\
  lookupFS (fs (snd r)) "/tmp/kustomize-042/chart/nginx" = None.
Proof. split; [eexists; reflexivity|]. repeat split; reflexivity. Qed.

Example exit_success :
  fst (Generate nginxPlugin nginxWorld) = Val (Some "kind: ConfigMap"%string, None) /\
  last (log (snd (Generate nginxPlugin nginxWorld))) EvTmpDir = EvRemoveAll fakeTmp /\
  fs (snd (Generate nginxPlugin nginxWorld)) = [].
Proof. repeat split; reflexivity. Qed.

(** * Further properties of the plugin *)

(** ** Paths *)

Lemma string_of_list_ascii_nil (l : list ascii) :
  string_of_list_ascii l = ""%string -> l = [].
Proof. destruct l; [reflexivity | discriminate]. Qed.

Lemma Clean_nonempty (p : string) : path.Clean p <> ""%string.
Proof.
  unfold path.Clean. destruct p as [|c rest]; [discriminate|].
  destruct (if isSlash c then _ else _) as [|x out]; [discriminate|].
  intros Hs. apply string_of_list_ascii_nil in Hs.
  cbn [rev] in Hs. apply app_eq_nil in Hs as [_ Hs]. discriminate.
Qed.

(** [path.Join] is empty only when all its elements are. *)
Lemma Join_nonempty (elem : list string) :
  (exists e, In e elem /\ e <> ""%string) -> path.Join elem <> ""%string.
Proof.
  intros [e [Hin He]]. unfold path.Join.
  destruct (fold_right _ 0 elem =? 0) eqn:Hsz; [|apply Clean_nonempty].
  exfalso. apply Nat.eqb_eq in Hsz. apply He. clear He.
  induction elem as [|x elem IH]; [destruct Hin|].
  simpl in Hsz. destruct Hin as [-> | Hin].
  - destruct e; [reflexivity | simpl in Hsz; lia].
  - apply IH; [assumption | lia].
Qed.

Lemma prefix_append (a b : string) : String.prefix a (a ++ b) = true.
Proof.
  induction a as [|c a IH]; simpl; [now destruct b|].
  destruct (ascii_dec c c); [exact IH | congruence].
Qed.

Section MoreProperties.
Context {HST : Host}.

(** ** [Config] *)

Lemma applyDefaults_resolved (tmp : string) (a : HelmChartArgs) :
  ChartName a <> ""%string -> resolved (applyDefaults tmp a).
Proof.
  intros Hn.
  destruct (applyDefaults_fields tmp a) as (E1 & E2 & E3 & E4 & E5 & E6 & _).
  unfold resolved. rewrite E1, E2, E3, E4, E5, E6.
  split; [assumption|].
  assert (Hch : (if String.eqb (ChartHome a) "" then path.Join [tmp; "chart"%string]
                 else ChartHome a) <> ""%string).
  { destruct (String.eqb_spec (ChartHome a) ""); [|assumption].
    apply Join_nonempty. exists "chart"%string. split; [simpl; auto | discriminate]. }
  split; [exact Hch|].
  split; [destruct (String.eqb_spec (ChartRepoName a) ""); [discriminate | assumption]|].
  split; [destruct (String.eqb_spec (HelmBin a) ""); [discriminate | assumption]|].
  split.
  - destruct (String.eqb_spec (HelmHome a) ""); [|assumption].
    apply Join_nonempty. exists ".helm"%string. split; [simpl; auto | discriminate].
  - destruct (String.eqb_spec (Values a) ""); [|assumption].
    apply Join_nonempty. exists "values.yaml"%string. split; [simpl; auto | discriminate].
Qed.

Lemma applyDefaults_noop (tmp : string) (a : HelmChartArgs) :
  resolved a -> applyDefaults tmp a = a.
Proof.
  intros (_ & H1 & H2 & H3 & H4 & H5).
  destruct a as [n v u ch rn hb hh vals rel ns ex]. simpl in *.
  apply String.eqb_neq in H1, H2, H3, H4, H5.
  unfold applyDefaults. simpl. rewrite H1. simpl. rewrite H2. simpl.
  rewrite H3. simpl. rewrite H4. simpl. rewrite H5. reflexivity.
Qed.

(** The outcomes of [Config], by the results of the decoder and of the
    allocator. *)
Lemma Config_cases p (hp : PluginHelpers) (config : string) (w : World) :
  let d := yaml_Unmarshal config (args p) in
  let t := NewTmpConfirmedDir (fs w) in
  Config p hp config w =
  match snd d with
  | Some e => (Val (mkPlugin (Some hp) (runHelmCommand p) (fst d) (tmpDir p), Some e), w)
  | None =>
      let w' := mkWorld (snd t) (environ w) (log w ++ [EvTmpDir]) in
      match snd (fst t) with
      | Some e => (Val (mkPlugin (Some hp) (runHelmCommand p) (fst d) (tmpDir p), Some e), w')
      | None =>
          if String.eqb (ChartName (fst d)) ""
          then (Val (mkPlugin (Some hp) (runHelmCommand p) (fst d) (fst (fst t)),
                     Some errNoChartName), w')
          else (Val (mkPlugin (Some hp) (Some helmCommand)
                       (applyDefaults (fst (fst t)) (fst d)) (fst (fst t)), None), w')
      end
  end.
Proof.
  cbv zeta.
  destruct (yaml_Unmarshal config (args p)) as [a [e|]] eqn:Hy.
  - apply Config_decode_error, Hy.
  - destruct (NewTmpConfirmedDir (fs w)) as [[tmp [e|]] f'] eqn:Ht.
    + apply (Config_tmpdir_error _ _ _ _ Hy Ht).
    + rewrite (Config_run _ _ _ _ Hy Ht). simpl.
      destruct (String.eqb (ChartName a) ""); reflexivity.
Qed.

(** X1.  When the decoder reports an error, [Config] returns that error
    and leaves the world as it was: no temporary directory is allocated. *)
Theorem Config_decode_error_no_allocation p (hp : PluginHelpers) (config : string)
    (w : World) (a : HelmChartArgs) (e : error) :
  yaml_Unmarshal config (args p) = (a, Some e) ->
  (exists p', fst (Config p hp config w) = Val (p', Some e) /\
              tmpDir p' = tmpDir p /\ runHelmCommand p' = runHelmCommand p) /\
  snd (Config p hp config w) = w.
Proof.
  intros Hy. rewrite Config_cases, Hy. simpl. split; [|reflexivity].
  eexists. split; [reflexivity|]. split; reflexivity.
Qed.

(** X2.  When the decoding succeeds and the allocation of the temporary
    directory fails, [Config] returns the allocation error whatever the
    chart name is, the empty one included; the plugin keeps its old
    [tmpDir] and function field. *)
Theorem Config_allocation_error_first p (hp : PluginHelpers) (config : string)
    (w : World) (a : HelmChartArgs) (tmp : string) (e : error) (f' : FS) :
  yaml_Unmarshal config (args p) = (a, None) ->
  NewTmpConfirmedDir (fs w) = ((tmp, Some e), f') ->
  exists p', fst (Config p hp config w) = Val (p', Some e) /\
             args p' = a /\ tmpDir p' = tmpDir p /\
             runHelmCommand p' = runHelmCommand p.
Proof.
  intros Hy Ht. rewrite Config_cases, Hy, Ht. simpl.
  eexists. split; [reflexivity|]. repeat split; reflexivity.
Qed.

(** X3.  Whenever [Config] returns without error, the chart name and
    the five fields with a default are all non-empty, the helpers and
    the closure are installed, the working directory is the one just
    allocated, and that allocation is the only system call made. *)
Theorem Config_success_resolved p (hp : PluginHelpers) (config : string)
    (w : World) p' :
  fst (Config p hp config w) = Val (p', None) ->
  resolved (args p') /\
  h p' = Some hp /\
  runHelmCommand p' = Some helmCommand /\
  tmpDir p' = fst (fst (NewTmpConfirmedDir (fs w))) /\
  log (snd (Config p hp config w)) = log w ++ [EvTmpDir].
Proof.
  rewrite Config_cases. cbv zeta.
  destruct (snd (yaml_Unmarshal config (args p))); [discriminate|].
  destruct (snd (fst (NewTmpConfirmedDir (fs w)))); [discriminate|].
  destruct (String.eqb_spec (ChartName (fst (yaml_Unmarshal config (args p)))) "");
    [discriminate|].
  simpl. intros [= <-]. simpl. repeat split; try reflexivity.
  all: apply applyDefaults_resolved; exact n.
Qed.

(** X4.  A field the configuration sets is never overwritten by its
    default, the fields without default are passed through, and a
    defaulted values path lies below the chart home the configuration
    gave. *)
Theorem Config_keeps_explicit_fields p (hp : PluginHelpers) (config : string)
    (w : World) (a : HelmChartArgs) (tmp : string) (f' : FS) :
  yaml_Unmarshal config (args p) = (a, None) ->
  NewTmpConfirmedDir (fs w) = ((tmp, None), f') ->
  ChartName a <> ""%string ->
  exists p',
    fst (Config p hp config w) = Val (p', None) /\
    (ChartHome a <> ""%string -> ChartHome (args p') = ChartHome a) /\
    (ChartRepoName a <> ""%string -> ChartRepoName (args p') = ChartRepoName a) /\
    (HelmBin a <> ""%string -> HelmBin (args p') = HelmBin a) /\
    (HelmHome a <> ""%string -> HelmHome (args p') = HelmHome a) /\
    (Values a <> ""%string -> Values (args p') = Values a) /\
    (ChartHome a <> ""%string -> Values a = ""%string ->
     Values (args p') = path.Join [ChartHome a; ChartName a; "values.yaml"%string]) /\
    ChartName (args p') = ChartName a /\ ChartVersion (args p') = ChartVersion a /\
    ChartRepoURL (args p') = ChartRepoURL a /\ ReleaseName (args p') = ReleaseName a /\
    ReleaseNamespace (args p') = ReleaseNamespace a /\ ExtraArgs (args p') = ExtraArgs a.
Proof.
  intros Hy Ht Hn. rewrite (Config_run _ _ _ _ Hy Ht).
  apply String.eqb_neq in Hn. rewrite Hn. eexists. split; [reflexivity|].
  cbn [args].
  destruct (applyDefaults_fields tmp a)
    as (E1 & E2 & E3 & E4 & E5 & E6 & E7 & E8 & E9 & E10 & E11).
  rewrite E1, E2, E3, E4, E5, E6, E7, E8, E9, E10, E11.
  repeat split; try reflexivity.
  - intros Hx. apply String.eqb_neq in Hx. now rewrite Hx.
  - intros Hx. apply String.eqb_neq in Hx. now rewrite Hx.
  - intros Hx. apply String.eqb_neq in Hx. now rewrite Hx.
  - intros Hx. apply String.eqb_neq in Hx. now rewrite Hx.
  - intros Hx. apply String.eqb_neq in Hx. now rewrite Hx.
  - intros Hx Hv. apply String.eqb_neq in Hx. rewrite Hv. cbn [String.eqb].
    rewrite E1, Hx. reflexivity.
Qed.

(** X5.  [Config] run again on a plugin whose fields are already
    resolved, with a document that leaves them, allocates a new working
    directory but re-derives no path: chart home, renderer home and
    values path stay those of the earlier run. *)
Theorem Config_again_keeps_paths p (hp : PluginHelpers) (config : string)
    (w : World) (tmp : string) (f' : FS) :
  resolved (args p) ->
  yaml_Unmarshal config (args p) = (args p, None) ->
  NewTmpConfirmedDir (fs w) = ((tmp, None), f') ->
  exists p',
    fst (Config p hp config w) = Val (p', None) /\
    args p' = args p /\ tmpDir p' = tmp.
Proof.
  intros Hr Hy Ht. rewrite (Config_run _ _ _ _ Hy Ht).
  destruct Hr as (Hn & Hr). pose proof Hn as Hn'.
  apply String.eqb_neq in Hn'. rewrite Hn'. eexists. split; [reflexivity|].
  split; [|reflexivity]. apply applyDefaults_noop. split; assumption.
Qed.

(** X6.  After a [Config] without error the render argument list always
    carries the flag "--values" with a non-empty path, placed right
    before the extra arguments, whether or not the configuration named
    a values file. *)
Theorem Config_template_has_values p (hp : PluginHelpers) (config : string)
    (w : World) p' :
  fst (Config p hp config w) = Val (p', None) ->
  Values (args p') <> ""%string /\
  exists pre,
    getTemplateCommandArgs p' =
    pre ++ ["--values"%string; Values (args p')] ++ ExtraArgs (args p').
Proof.
  rewrite Config_cases. cbv zeta.
  destruct (snd (yaml_Unmarshal config (args p))); [discriminate|].
  destruct (snd (fst (NewTmpConfirmedDir (fs w)))); [discriminate|].
  destruct (String.eqb_spec (ChartName (fst (yaml_Unmarshal config (args p)))) "");
    [discriminate|].
  simpl. intros [= <-].
  assert (Hv : Values (applyDefaults (fst (fst (NewTmpConfirmedDir (fs w))))
                        (fst (yaml_Unmarshal config (args p)))) <> ""%string)
    by (apply applyDefaults_resolved; exact n).
  split; [exact Hv|].
  unfold getTemplateCommandArgs. cbn [args].
  apply String.eqb_neq in Hv. rewrite Hv. cbn [negb].
  eexists. rewrite <- app_assoc. reflexivity.
Qed.

(** ** [checkHelmVersion] and [Generate] with the closure of [Config] *)

Lemma checkHelmVersion_invoke p (w : World) :
  runHelmCommand p = Some helmCommand ->
  checkHelmVersion p w =
  (match procErr (fst (invoke p versionArgs w)) with
   | Some _ => Val (Some (runFailed (args p) versionArgs
                            (procStderr (fst (invoke p versionArgs w)))))
   | None => gate (procStdout (fst (invoke p versionArgs w)))
   end, snd (invoke p versionArgs w)).
Proof.
  intros Hc. pose proof (@callRunHelmCommand_run _ p versionArgs w Hc) as Hrun.
  destruct (procErr (fst (invoke p versionArgs w))).
  - apply (@checkHelmVersion_run_error _ p w _ _ _ Hrun).
  - apply (@checkHelmVersion_run _ p w _ _ Hrun).
Qed.

Lemma acquireStep_trace p (w1 : World) :
  let S := EvStat (chartDir p) in
  let P := execEvent p (getPullCommandArgs p) in
  let T := execEvent p (getTemplateCommandArgs p) in
  let R := EvRemoveAll (tmpDir p) in
  exists t, In t [ [S; T; R]; [S; P; R]; [S; P; T; R] ] /\
            log (snd (acquireStep p w1)) = log w1 ++ t.
Proof.
  cbv zeta. unfold acquireStep.
  destruct (isDir (lookupFS (fs w1) (chartDir p))).
  - eexists. split; [left; reflexivity|].
    rewrite renderStep_log. unfold logged. simpl. now rewrite <- app_assoc.
  - destruct (invoke p (getPullCommandArgs p) _) as [r w3] eqn:Hi.
    assert (Hw3 : log w3 = log w1 ++ [EvStat (chartDir p); execEvent p (getPullCommandArgs p)]).
    { unfold invoke in Hi. injection Hi as _ <-. unfold logged. simpl.
      now rewrite <- app_assoc. }
    destruct (procErr r).
    + eexists. split; [right; left; reflexivity|].
      unfold cleanup. simpl. rewrite Hw3. now rewrite <- app_assoc.
    + eexists. split; [right; right; left; reflexivity|].
      rewrite renderStep_log, Hw3. now rewrite <- app_assoc.
Qed.

(** X8.  When the Version Gate fails, [Generate] returns the gate's
    error with no resource map, and apart from the version query its
    only system call is the removal of the working directory: the chart
    path is not looked at and nothing is fetched or rendered. *)
Theorem Generate_gate_failure p (w w1 : World) (e : error) :
  runHelmCommand p = Some helmCommand ->
  checkHelmVersion p w = (Val (Some e), w1) ->
  fst (Generate p w) = Val (None, Some e) /\
  log (snd (Generate p w)) =
    log w ++ [execEvent p versionArgs; EvRemoveAll (tmpDir p)] /\
  fs (snd (Generate p w)) = removeAllFS (tmpDir p) (fs w1).
Proof.
  intros Hc Hg. rewrite (@Generate_gate_failed _ p w w1 e Hg).
  rewrite (@checkHelmVersion_invoke p w Hc) in Hg. injection Hg as _ <-.
  repeat split. unfold cleanup, invoke. simpl. now rewrite <- app_assoc.
Qed.

(** X9.  When the gate has passed, no directory is at the chart path
    and the fetch process fails, [Generate] returns the error built
    from the standard error of the fetch and its command line, and the
    render command is never run. *)
Theorem Generate_fetch_failure p (w w1 : World) (e0 : error) :
  runHelmCommand p = Some helmCommand ->
  checkHelmVersion p w = (Val None, w1) ->
  isDir (lookupFS (fs w1) (chartDir p)) = false ->
  procErr (fst (runProcess (HelmBin (args p)) (getPullCommandArgs p)
                  (helmEnv (args p)) (fs w1))) = Some e0 ->
  fst (Generate p w) =
    Val (None,
         Some (runFailed (args p) (getPullCommandArgs p)
                 (procStderr (fst (runProcess (HelmBin (args p)) (getPullCommandArgs p)
                                     (helmEnv (args p)) (fs w1)))))) /\
  log (snd (Generate p w)) =
    log w1 ++ [EvStat (chartDir p); execEvent p (getPullCommandArgs p);
               EvRemoveAll (tmpDir p)].
Proof.
  intros Hc Hg Hd He. rewrite (@Generate_gate_passed _ p w w1 Hc Hg).
  unfold acquireStep. rewrite Hd. unfold invoke, logged. cbn [fs fst snd].
  rewrite He. split; [reflexivity|].
  unfold cleanup. simpl. now rewrite <- !app_assoc.
Qed.

(** X10.  When the gate has passed and a directory is at the chart
    path, [Generate] runs the render command on the filesystem as the
    version query left it and returns what the resource-map factory
    makes of its standard output, or, if the render process fails, the
    error built from its standard error; nothing is fetched. *)
Theorem Generate_local_chart p (w w1 : World) :
  runHelmCommand p = Some helmCommand ->
  checkHelmVersion p w = (Val None, w1) ->
  isDir (lookupFS (fs w1) (chartDir p)) = true ->
  fst (Generate p w) =
    (let r := fst (runProcess (HelmBin (args p)) (getTemplateCommandArgs p)
                     (helmEnv (args p)) (fs w1)) in
     match procErr r with
     | Some _ =>
         Val (None, Some (runFailed (args p) (getTemplateCommandArgs p) (procStderr r)))
     | None =>
         match h p with
         | Some hp => Val (NewResMapFromBytes hp (procStdout r))
         | None => Panic "invalid memory address or nil pointer dereference"
         end
     end) /\
  log (snd (Generate p w)) =
    log w1 ++ [EvStat (chartDir p); execEvent p (getTemplateCommandArgs p);
               EvRemoveAll (tmpDir p)].
Proof.
  intros Hc Hg Hd. rewrite (@Generate_gate_passed _ p w w1 Hc Hg).
  unfold acquireStep. rewrite Hd. split.
  - unfold renderStep, invoke, logged. cbn [fs fst snd]. reflexivity.
  - rewrite renderStep_log. unfold logged. simpl. now rewrite <- app_assoc.
Qed.

(** X11.  On a plugin whose function field was never set (no [Config]
    without error before), [Generate] panics on the version query; the
    deferred removal is still its one system call, and with no working
    directory recorded it leaves the filesystem as it was. *)
Theorem Generate_unconfigured p (w : World) :
  runHelmCommand p = None ->
  fst (Generate p w) = Panic "invalid memory address or nil pointer dereference" /\
  log (snd (Generate p w)) = log w ++ [EvRemoveAll (tmpDir p)] /\
  (tmpDir p = ""%string -> fs (snd (Generate p w)) = fs w).
Proof.
  intros Hn.
  assert (Hg : checkHelmVersion p w =
               (Panic "invalid memory address or nil pointer dereference", w)).
  { unfold checkHelmVersion, bind, callRunHelmCommand. rewrite Hn. reflexivity. }
  rewrite (@Generate_gate_panicked _ p w w _ Hg). repeat split.
  intros Ht. unfold cleanup. simpl. rewrite Ht. reflexivity.
Qed.

Lemma within_below (dir rest : string) :
  within dir (dir ++ "/" ++ rest) = true.
Proof.
  unfold within. rewrite <- append_assoc_s, prefix_append. apply orb_true_r.
Qed.

(** X12.  With the default chart home (a temporary directory that is an
    absolute path of plain elements, a plain chart name), the chart
    path lies inside the working directory, so nothing is left at it
    when [Generate] returns: a fetched chart does not outlive the run. *)
Theorem Generate_removes_default_chart p (hp : PluginHelpers) (config : string)
    (w : World) (a : HelmChartArgs) (es : list string) (f' : FS) :
  yaml_Unmarshal config (args p) = (a, None) ->
  NewTmpConfirmedDir (fs w) = ((absPath es, None), f') ->
  Forall plainElem es -> es <> [] -> plainElem (ChartName a) ->
  ChartHome a = ""%string ->
  exists p',
    fst (Config p hp config w) = Val (p', None) /\
    chartDir p' = (absPath es ++ "/chart/" ++ ChartName a)%string /\
    within (tmpDir p') (chartDir p') = true /\
    forall w1, lookupFS (fs (snd (Generate p' w1))) (chartDir p') = None.
Proof.
  intros Hy Ht Hes Hne Hn Hch. rewrite (@Config_run _ p hp config w a _ f' Hy Ht).
  assert (Hn1 : String.eqb (ChartName a) "" = false) by (apply String.eqb_neq, Hn).
  rewrite Hn1. eexists. split; [reflexivity|].
  assert (Hdir : chartDir (mkPlugin (Some hp) (Some helmCommand)
                             (applyDefaults (absPath es) a) (absPath es))
                 = (absPath es ++ "/chart/" ++ ChartName a)%string).
  { unfold chartDir. cbn [args].
    destruct (applyDefaults_fields (absPath es) a) as (E1 & _ & _ & _ & _ & E6 & _).
    rewrite E1, E6, Hch. cbn [String.eqb].
    assert (Hes' : Forall plainElem (es ++ ["chart"%string])).
    { apply Forall_app. split; [assumption|].
      constructor; [apply plainElem_chart | constructor]. }
    assert (Hne' : es ++ ["chart"%string] <> []) by (destruct es; discriminate).
    assert (Hc1 : Forall plainElem ["chart"%string])
      by (constructor; [apply plainElem_chart | constructor]).
    assert (Hn' : Forall plainElem [ChartName a]) by (constructor; [exact Hn | constructor]).
    rewrite (@Join_absPath es ["chart"%string] Hes Hne Hc1).
    rewrite (@Join_absPath (es ++ ["chart"%string]) [ChartName a] Hes' Hne' Hn').
    rewrite !absPath_snoc by assumption.
    now rewrite !append_assoc_s. }
  assert (Hin : within (absPath es) (absPath es ++ "/chart/" ++ ChartName a) = true).
  { apply (within_below (absPath es) ("chart/" ++ ChartName a)). }
  rewrite Hdir. split; [reflexivity|]. split; [exact Hin|].
  intros w1.
  destruct (@Generate_cleanup _ (mkPlugin (Some hp) (Some helmCommand)
                                   (applyDefaults (absPath es) a) (absPath es)) w1)
    as [r [wb Hgen]].
  rewrite Hgen. unfold cleanup. cbn [fs tmpDir].
  apply removeAllFS_gone; [discriminate | exact Hin].
Qed.

Lemma renderStep_fs p (w : World) :
  fs (snd (renderStep p w)) =
  removeAllFS (tmpDir p)
    (snd (runProcess (HelmBin (args p)) (getTemplateCommandArgs p)
            (helmEnv (args p)) (fs w))).
Proof. reflexivity. Qed.

(** X14.  After a successful version query [checkHelmVersion] panics
    exactly when the output holds no substring of the version shape;
    in particular taking the first dot-separated field never panics. *)
Theorem checkHelmVersion_panics_iff_no_match p (w w1 : World) (stdout : string) :
  callRunHelmCommand p versionArgs w = (Val (stdout, None), w1) ->
  ((exists msg, fst (checkHelmVersion p w) = Panic msg) <->
   ~ regexp.ContainsVersion stdout).
Proof.
  intros Hrun. rewrite (@checkHelmVersion_run _ p w w1 stdout Hrun). cbn [fst]. split.
  - intros [msg Hp] Hc.
    destruct (@gate_match stdout Hc) as [major [g [_ [_ [_ Hgate]]]]].
    rewrite Hgate in Hp. destruct (String.eqb major "3"); discriminate.
  - intros Hc. eexists. apply gate_no_match, Hc.
Qed.

(** X15.  When the version process itself fails, [checkHelmVersion]
    returns the error built from its standard error and command line
    without looking at the output: there is no panic then, whatever was
    printed, and [Generate] returns that error. *)
Theorem checkHelmVersion_query_failure p (w : World) (e0 : error) :
  runHelmCommand p = Some helmCommand ->
  procErr (fst (runProcess (HelmBin (args p)) versionArgs (helmEnv (args p)) (fs w)))
    = Some e0 ->
  let err := runFailed (args p) versionArgs
               (procStderr (fst (runProcess (HelmBin (args p)) versionArgs
                                   (helmEnv (args p)) (fs w)))) in
  fst (checkHelmVersion p w) = Val (Some err) /\
  fst (Generate p w) = Val (None, Some err).
Proof.
  intros Hc He. cbv zeta. pose proof (@checkHelmVersion_invoke p w Hc) as Hg.
  unfold invoke in Hg. cbn [fst snd] in Hg. rewrite He in Hg.
  rewrite (@Generate_gate_failed _ p w _ _ Hg), Hg. split; reflexivity.
Qed.

(** X16.  With a directory at the chart path, the chart version, the
    repository alias and the repository URL play no part: [Generate]
    gives the same result and makes the same system calls whatever
    these three fields hold (a local chart is used as it is). *)
Theorem Generate_local_ignores_pull_fields p (w w1 : World)
    (version repoName repoURL : string) :
  runHelmCommand p = Some helmCommand ->
  checkHelmVersion p w = (Val None, w1) ->
  isDir (lookupFS (fs w1) (chartDir p)) = true ->
  Generate (setPullFields p version repoName repoURL) w = Generate p w.
Proof.
  intros Hc Hg Hd.
  assert (Hc' : runHelmCommand (setPullFields p version repoName repoURL)
                = Some helmCommand) by exact Hc.
  assert (Hg' : checkHelmVersion (setPullFields p version repoName repoURL) w
                = (Val None, w1)).
  { rewrite (@checkHelmVersion_invoke _ w Hc').
    rewrite (@checkHelmVersion_invoke p w Hc) in Hg. exact Hg. }
  rewrite (@Generate_gate_passed _ _ w w1 Hc' Hg').
  rewrite (@Generate_gate_passed _ p w w1 Hc Hg).
  unfold acquireStep.
  change (chartDir (setPullFields p version repoName repoURL)) with (chartDir p).
  rewrite Hd. reflexivity.
Qed.

End MoreProperties.

(** ** Runs of the further properties *)

Lemma Config_decode_error_no_allocation_witness :
  @yaml_Unmarshal badYamlHost "chartName: [" (args (@KustomizePlugin badYamlHost))
    = (zeroArgs, Some "yaml: unmarshal errors"%string) /\
  (exists p', fst (@Config badYamlHost (@KustomizePlugin badYamlHost) badYamlHelpers
                     "chartName: [" world0)
              = Val (p', Some "yaml: unmarshal errors"%string) /\
              tmpDir p' = tmpDir (@KustomizePlugin badYamlHost) /\
              runHelmCommand p' = runHelmCommand (@KustomizePlugin badYamlHost)) /\
  snd (@Config badYamlHost (@KustomizePlugin badYamlHost) badYamlHelpers
         "chartName: [" world0) = world0.
Proof.
  split; [reflexivity|].
  apply (@Config_decode_error_no_allocation badYamlHost (@KustomizePlugin badYamlHost)
           badYamlHelpers "chartName: ["%string world0 zeroArgs
           "yaml: unmarshal errors"%string).
  reflexivity.
Defined.

Lemma Config_allocation_error_first_witness :
  @yaml_Unmarshal noTmpHost "" (args (@KustomizePlugin noTmpHost)) = (zeroArgs, None) /\
  ChartName zeroArgs = ""%string /\
  @NewTmpConfirmedDir noTmpHost (fs world0)
    = ((""%string, Some "mkdir /tmp: permission denied"%string), []) /\
  exists p', fst (@Config noTmpHost (@KustomizePlugin noTmpHost) noTmpHelpers "" world0)
             = Val (p', Some "mkdir /tmp: permission denied"%string) /\
             args p' = zeroArgs /\ tmpDir p' = tmpDir (@KustomizePlugin noTmpHost) /\
             runHelmCommand p' = runHelmCommand (@KustomizePlugin noTmpHost).
Proof.
  split; [reflexivity|]. split; [reflexivity|]. split; [reflexivity|].
  apply (@Config_allocation_error_first noTmpHost (@KustomizePlugin noTmpHost)
           noTmpHelpers ""%string world0 zeroArgs ""%string
           "mkdir /tmp: permission denied"%string []); reflexivity.
Defined.

Lemma Config_success_resolved_witness :
  fst (@Config nginxHost (@KustomizePlugin nginxHost) (fakeHelpers nginxArgs helm3)
         "" world0) = Val (nginxPlugin, None) /\
  resolved (args nginxPlugin) /\
  h nginxPlugin = Some (fakeHelpers nginxArgs helm3) /\
  runHelmCommand nginxPlugin = Some (@helmCommand nginxHost) /\
  tmpDir nginxPlugin = fst (fst (@NewTmpConfirmedDir nginxHost (fs world0))) /\
  log (snd (@Config nginxHost (@KustomizePlugin nginxHost) (fakeHelpers nginxArgs helm3)
              "" world0)) = log world0 ++ [EvTmpDir].
Proof.
  split; [reflexivity|].
  apply (@Config_success_resolved nginxHost (@KustomizePlugin nginxHost)
           (fakeHelpers nginxArgs helm3) ""%string world0 nginxPlugin).
  reflexivity.
Defined.

Lemma Config_keeps_explicit_fields_witness :
  @yaml_Unmarshal homeHost "" (args (@KustomizePlugin homeHost)) = (nginxHomeArgs, None) /\
  @NewTmpConfirmedDir homeHost (fs world0) = ((fakeTmp, None), [(fakeTmp, ModeDir)]) /\
  ChartName nginxHomeArgs <> ""%string /\
  exists p',
    fst (@Config homeHost (@KustomizePlugin homeHost) (fakeHelpers nginxHomeArgs helm3)
           "" world0) = Val (p', None) /\
    (ChartHome nginxHomeArgs <> ""%string -> ChartHome (args p') = ChartHome nginxHomeArgs) /\
    (ChartRepoName nginxHomeArgs <> ""%string ->
     ChartRepoName (args p') = ChartRepoName nginxHomeArgs) /\
    (HelmBin nginxHomeArgs <> ""%string -> HelmBin (args p') = HelmBin nginxHomeArgs) /\
    (HelmHome nginxHomeArgs <> ""%string -> HelmHome (args p') = HelmHome nginxHomeArgs) /\
    (Values nginxHomeArgs <> ""%string -> Values (args p') = Values nginxHomeArgs) /\
    (ChartHome nginxHomeArgs <> ""%string -> Values nginxHomeArgs = ""%string ->
     Values (args p') =
       path.Join [ChartHome nginxHomeArgs; ChartName nginxHomeArgs; "values.yaml"%string]) /\
    ChartName (args p') = ChartName nginxHomeArgs /\
    ChartVersion (args p') = ChartVersion nginxHomeArgs /\
    ChartRepoURL (args p') = ChartRepoURL nginxHomeArgs /\
    ReleaseName (args p') = ReleaseName nginxHomeArgs /\
    ReleaseNamespace (args p') = ReleaseNamespace nginxHomeArgs /\
    ExtraArgs (args p') = ExtraArgs nginxHomeArgs.
Proof.
  assert (Hne : ChartName nginxHomeArgs <> ""%string) by (simpl; discriminate).
  split; [reflexivity|]. split; [reflexivity|]. split; [exact Hne|].
  apply (@Config_keeps_explicit_fields homeHost (@KustomizePlugin homeHost)
           (fakeHelpers nginxHomeArgs helm3) ""%string world0 nginxHomeArgs fakeTmp
           [(fakeTmp, ModeDir)]); first [reflexivity | exact Hne].
Defined.

Lemma Config_again_keeps_paths_witness :
  resolved (args stickyPlugin) /\
  @yaml_Unmarshal stickyHost "" (args stickyPlugin) = (args stickyPlugin, None) /\
  @NewTmpConfirmedDir stickyHost (fs stickyWorld)
    = (("/tmp/kustomize-043"%string, None),
       ("/tmp/kustomize-043"%string, ModeDir) :: fs stickyWorld) /\
  ChartHome (args stickyPlugin) = "/tmp/kustomize-042/chart"%string /\
  exists p',
    fst (@Config stickyHost stickyPlugin stickyHelpers "" stickyWorld) = Val (p', None) /\
    args p' = args stickyPlugin /\ tmpDir p' = "/tmp/kustomize-043"%string.
Proof.
  assert (Hr : resolved (args stickyPlugin)) by (repeat split; discriminate).
  split; [exact Hr|]. split; [reflexivity|]. split; [reflexivity|]. split; [reflexivity|].
  apply (@Config_again_keeps_paths stickyHost stickyPlugin stickyHelpers ""%string
           stickyWorld "/tmp/kustomize-043"%string
           (("/tmp/kustomize-043"%string, ModeDir) :: fs stickyWorld));
    first [exact Hr | reflexivity].
Defined.

Lemma Config_template_has_values_witness :
  fst (@Config nginxHost (@KustomizePlugin nginxHost) (fakeHelpers nginxArgs helm3)
         "" world0) = Val (nginxPlugin, None) /\
  Values nginxArgs = ""%string /\
  Values (args nginxPlugin) <> ""%string /\
  exists pre,
    getTemplateCommandArgs nginxPlugin =
    pre ++ ["--values"%string; Values (args nginxPlugin)] ++ ExtraArgs (args nginxPlugin).
Proof.
  split; [reflexivity|]. split; [reflexivity|].
  apply (@Config_template_has_values nginxHost (@KustomizePlugin nginxHost)
           (fakeHelpers nginxArgs helm3) ""%string world0 nginxPlugin).
  reflexivity.
Defined.

Lemma Generate_gate_failure_witness :
  runHelmCommand v2Plugin = Some (@helmCommand v2Host) /\
  checkHelmVersion v2Plugin v2World =
    (Val (Some "this plugin requires helm V3 but got v2.16.1"%string),
     snd (checkHelmVersion v2Plugin v2World)) /\
  fst (Generate v2Plugin v2World) =
    Val (None, Some "this plugin requires helm V3 but got v2.16.1"%string) /\
  log (snd (Generate v2Plugin v2World)) =
    log v2World ++ [execEvent v2Plugin versionArgs; EvRemoveAll (tmpDir v2Plugin)] /\
  fs (snd (Generate v2Plugin v2World)) =
    removeAllFS (tmpDir v2Plugin) (fs (snd (checkHelmVersion v2Plugin v2World))).
Proof.
  split; [reflexivity|]. split; [reflexivity|].
  apply (@Generate_gate_failure v2Host v2Plugin v2World
           (snd (checkHelmVersion v2Plugin v2World))
           "this plugin requires helm V3 but got v2.16.1"%string); reflexivity.
Defined.

Lemma Generate_fetch_failure_witness :
  runHelmCommand noPullPlugin = Some (@helmCommand noPullHost) /\
  checkHelmVersion noPullPlugin noPullWorld =
    (Val None, snd (checkHelmVersion noPullPlugin noPullWorld)) /\
  isDir (lookupFS (fs (snd (checkHelmVersion noPullPlugin noPullWorld)))
           (chartDir noPullPlugin)) = false /\
  fst (Generate noPullPlugin noPullWorld) =
    Val (None,
         Some ("Error: chart not found: failed to run command helm pull "
               ++ "--untar --untardir /tmp/kustomize-042/chart stable/nginx")%string) /\
  log (snd (Generate noPullPlugin noPullWorld)) =
    log (snd (checkHelmVersion noPullPlugin noPullWorld))
    ++ [EvStat (chartDir noPullPlugin);
        execEvent noPullPlugin (getPullCommandArgs noPullPlugin);
        EvRemoveAll (tmpDir noPullPlugin)].
Proof.
  split; [reflexivity|]. split; [reflexivity|]. split; [reflexivity|].
  apply (@Generate_fetch_failure noPullHost noPullPlugin noPullWorld
           (snd (checkHelmVersion noPullPlugin noPullWorld)) "exit status 1"%string);
    reflexivity.
Defined.

Lemma Generate_local_chart_witness :
  runHelmCommand homePlugin = Some (@helmCommand homeHost) /\
  checkHelmVersion homePlugin homeWorld =
    (Val None, snd (checkHelmVersion homePlugin homeWorld)) /\
  isDir (lookupFS (fs (snd (checkHelmVersion homePlugin homeWorld)))
           (chartDir homePlugin)) = true /\
  fst (Generate homePlugin homeWorld) = Val (Some "kind: ConfigMap"%string, None) /\
  log (snd (Generate homePlugin homeWorld)) =
    log (snd (checkHelmVersion homePlugin homeWorld))
    ++ [EvStat (chartDir homePlugin);
        execEvent homePlugin (getTemplateCommandArgs homePlugin);
        EvRemoveAll (tmpDir homePlugin)].
Proof.
  split; [reflexivity|]. split; [reflexivity|]. split; [reflexivity|].
  apply (@Generate_local_chart homeHost homePlugin homeWorld
           (snd (checkHelmVersion homePlugin homeWorld))); reflexivity.
Defined.

Lemma Generate_unconfigured_witness :
  runHelmCommand (@KustomizePlugin nginxHost) = None /\
  fst (Generate (@KustomizePlugin nginxHost) worldLocal)
    = Panic "invalid memory address or nil pointer dereference" /\
  log (snd (Generate (@KustomizePlugin nginxHost) worldLocal))
    = log worldLocal ++ [EvRemoveAll (tmpDir (@KustomizePlugin nginxHost))] /\
  (tmpDir (@KustomizePlugin nginxHost) = ""%string ->
   fs (snd (Generate (@KustomizePlugin nginxHost) worldLocal)) = fs worldLocal).
Proof.
  split; [reflexivity|].
  apply (@Generate_unconfigured nginxHost (@KustomizePlugin nginxHost) worldLocal).
  reflexivity.
Defined.

Lemma Generate_removes_default_chart_witness :
  @yaml_Unmarshal nginxHost "" (args (@KustomizePlugin nginxHost)) = (nginxArgs, None) /\
  @NewTmpConfirmedDir nginxHost (fs world0)
    = ((absPath ["tmp"; "kustomize-042"]%string, None), [(fakeTmp, ModeDir)]) /\
  Forall plainElem ["tmp"; "kustomize-042"]%string /\
  plainElem (ChartName nginxArgs) /\
  ChartHome nginxArgs = ""%string /\
  exists p',
    fst (@Config nginxHost (@KustomizePlugin nginxHost) (fakeHelpers nginxArgs helm3)
           "" world0) = Val (p', None) /\
    chartDir p' = (absPath ["tmp"; "kustomize-042"] ++ "/chart/" ++ ChartName nginxArgs)%string /\
    within (tmpDir p') (chartDir p') = true /\
    forall w1, lookupFS (fs (snd (Generate p' w1))) (chartDir p') = None.
Proof.
  assert (Hes : Forall plainElem ["tmp"; "kustomize-042"]%string)
    by (repeat constructor; discriminate).
  assert (Hn : plainElem (ChartName nginxArgs)) by (repeat split; discriminate).
  split; [reflexivity|]. split; [reflexivity|]. split; [exact Hes|].
  split; [exact Hn|]. split; [reflexivity|].
  apply (@Generate_removes_default_chart nginxHost (@KustomizePlugin nginxHost)
           (fakeHelpers nginxArgs helm3) ""%string world0 nginxArgs
           ["tmp"; "kustomize-042"]%string [(fakeTmp, ModeDir)]);
    first [reflexivity | exact Hes | exact Hn | discriminate].
Defined.

Lemma checkHelmVersion_panics_iff_no_match_witness :
  callRunHelmCommand silentPlugin versionArgs silentWorld =
    (Val (""%string, None), snd (callRunHelmCommand silentPlugin versionArgs silentWorld)) /\
  ((exists msg, fst (checkHelmVersion silentPlugin silentWorld) = Panic msg) <->
   ~ regexp.ContainsVersion "").
Proof.
  split; [reflexivity|].
  apply (@checkHelmVersion_panics_iff_no_match silentHost silentPlugin silentWorld
           (snd (callRunHelmCommand silentPlugin versionArgs silentWorld)) ""%string).
  reflexivity.
Defined.

Lemma checkHelmVersion_query_failure_witness :
  runHelmCommand brokenPlugin = Some (@helmCommand brokenHost) /\
  procErr (fst (@runProcess brokenHost (HelmBin (args brokenPlugin)) versionArgs
                  (helmEnv (args brokenPlugin)) (fs brokenWorld)))
    = Some "exit status 127"%string /\
  fst (checkHelmVersion brokenPlugin brokenWorld) =
    Val (Some ("exec: helm: not found: failed to run command helm version -c --short")%string) /\
  fst (Generate brokenPlugin brokenWorld) =
    Val (None,
         Some ("exec: helm: not found: failed to run command helm version -c --short")%string).
Proof.
  split; [reflexivity|]. split; [reflexivity|].
  apply (@checkHelmVersion_query_failure brokenHost brokenPlugin brokenWorld
           "exit status 127"%string); reflexivity.
Defined.

Lemma Generate_local_ignores_pull_fields_witness :
  runHelmCommand homePlugin = Some (@helmCommand homeHost) /\
  checkHelmVersion homePlugin homeWorld =
    (Val None, snd (checkHelmVersion homePlugin homeWorld)) /\
  isDir (lookupFS (fs (snd (checkHelmVersion homePlugin homeWorld)))
           (chartDir homePlugin)) = true /\
  Generate (setPullFields homePlugin "9.9.9" "bitnami" "https://charts.example.com")
    homeWorld = Generate homePlugin homeWorld.
Proof.
  split; [reflexivity|]. split; [reflexivity|]. split; [reflexivity|].
  apply (@Generate_local_ignores_pull_fields homeHost homePlugin homeWorld
           (snd (checkHelmVersion homePlugin homeWorld))
           "9.9.9"%string "bitnami"%string "https://charts.example.com"%string);
    reflexivity.
Defined.

(** * Paths of plain elements, relative ones included *)

Section PlainPaths.
Import path.

Lemma cleanLoop_plain (r : bool) (dd : nat) (es : list string) (out : list ascii) :
  Forall plainElem es -> es <> [] -> (r = true -> out <> []) ->
  cleanLoop r false dd out (relPath es) =
  rev (list_ascii_of_string (relPath es)) ++ startElem r out.
Proof.
  unfold relPath. intros Hes. revert out.
  induction Hes as [|e es He Hes IH]; intros out Hne Hout; [congruence|].
  destruct es as [|e' es'].
  - simpl. rewrite <- (append_nil_r e) at 1.
    rewrite cleanLoop_start by (auto; now left). reflexivity.
  - change (String.concat "/" (e :: e' :: es'))
      with (e ++ String "/" (String.concat "/" (e' :: es')))%string.
    rewrite cleanLoop_start by (auto; right; eauto).
    cbn [cleanLoop isSlash]. simpl (Ascii.eqb "/" "/").
    assert (Hlen : 2 <= List.length (rev (list_ascii_of_string e) ++ startElem r out)
                   \/ (r = false /\ 1 <= List.length (rev (list_ascii_of_string e) ++ startElem r out))).
    { destruct e as [|c e]; [destruct He; congruence|].
      cbn [list_ascii_of_string rev]. rewrite !length_app. cbn [List.length].
      destruct r.
      - left. specialize (Hout eq_refl). unfold startElem.
        destruct out; [congruence|]. destruct (_ || _); cbn [List.length]; lia.
      - right. split; [reflexivity | lia]. }
    rewrite IH; [|discriminate|].
    + rewrite list_ascii_append. cbn [list_ascii_of_string].
      rewrite rev_app_distr. cbn [rev]. rewrite <- !app_assoc.
      f_equal. unfold startElem at 1.
      destruct Hlen as [Hlen | [-> Hlen]].
      * replace (List.length _ =? 1) with false by (symmetry; apply Nat.eqb_neq; lia).
        replace (List.length _ =? 0) with false by (symmetry; apply Nat.eqb_neq; lia).
        now destruct r.
      * replace (List.length _ =? 0) with false by (symmetry; apply Nat.eqb_neq; lia).
        reflexivity.
    + intros _ Hnil.
      assert (Hl : List.length (rev (list_ascii_of_string e) ++ startElem r out) = 0)
        by now rewrite Hnil.
      destruct Hlen as [Hlen | [_ Hlen]]; lia.
Qed.

Lemma relPath_head (es : list string) :
  Forall plainElem es -> es <> [] ->
  exists c rest, relPath es = String c rest /\ isSlash c = false.
Proof.
  intros Hes Hne. destruct Hes as [|e es He Hes]; [congruence|].
  destruct He as (He0 & Hsl & _). destruct e as [|c e]; [congruence|].
  simpl in Hsl. apply andb_true_iff in Hsl as [Hc _].
  unfold notSlash in Hc. exists c.
  destruct es; unfold relPath; simpl; eexists; (split; [reflexivity|]);
    now destruct (isSlash c).
Qed.

Lemma Clean_relPath (es : list string) :
  Forall plainElem es -> es <> [] -> Clean (relPath es) = relPath es.
Proof.
  intros Hes Hne. destruct (relPath_head Hes Hne) as [c [rest [Hp Hc]]].
  unfold Clean. rewrite Hp, Hc, <- Hp.
  rewrite cleanLoop_plain by (auto; discriminate).
  cbn [startElem andb negb orb List.length Nat.eqb app].
  rewrite app_nil_r.
  destruct (rev (list_ascii_of_string (relPath es))) eqn:Hout.
  - rewrite Hp in Hout. cbn [list_ascii_of_string rev] in Hout.
    apply app_eq_nil in Hout as [_ Hout]. discriminate.
  - rewrite <- Hout, rev_involutive. apply string_of_list_ascii_of_string.
Qed.

Lemma relPath_snoc (es : list string) (n : string) :
  es <> [] -> relPath (es ++ [n]) = (relPath es ++ "/" ++ n)%string.
Proof.
  intros Hne. pose proof (absPath_snoc n Hne) as Ha.
  unfold absPath in Ha. cbn [append] in Ha. injection Ha as Ha. exact Ha.
Qed.

Lemma joinBuf_cons (buf n : string) (names : list string) :
  buf <> ""%string -> joinBuf buf (n :: names) = joinBuf (buf ++ "/" ++ n) names.
Proof.
  intros Hb. cbn [joinBuf]. destruct buf; [congruence | reflexivity].
Qed.

Lemma joinBuf_relPath (es names : list string) :
  relPath es <> ""%string -> es <> [] ->
  joinBuf (relPath es) names = relPath (es ++ names).
Proof.
  revert es. induction names as [|n names IH]; intros es Hb Hne.
  - now rewrite app_nil_r.
  - rewrite joinBuf_cons by assumption. rewrite <- relPath_snoc by assumption.
    rewrite IH.
    + now rewrite <- app_assoc.
    + rewrite relPath_snoc by assumption. destruct (relPath es); [congruence | discriminate].
    + destruct es; discriminate.
Qed.

Lemma Join_relPath (es names : list string) :
  Forall plainElem es -> es <> [] -> Forall plainElem names ->
  Join (relPath es :: names) = relPath (es ++ names).
Proof.
  intros Hes Hne Hnames. destruct (relPath_head Hes Hne) as [c [rest [Hp _]]].
  assert (Hb : relPath es <> ""%string) by (rewrite Hp; discriminate).
  unfold Join. cbn [fold_right]. rewrite Hp at 1. cbn [String.length Nat.add Nat.eqb].
  cbn [joinBuf String.length Nat.eqb negb]. rewrite Hp at 1. cbn [String.eqb negb].
  change ("" ++ relPath es)%string with (relPath es).
  rewrite joinBuf_relPath by assumption.
  apply Clean_relPath; [apply Forall_app; auto | destruct es; [congruence | discriminate]].
Qed.

(** On a path of plain elements, joining plain elements is writing them
    after it with slashes. *)
Lemma Join_plain (d n : string) :
  plainPath d -> plainElem n ->
  Join [d; n] = (d ++ "/" ++ n)%string /\ plainPath (d ++ "/" ++ n).
Proof.
  intros (es & Hes & Hne & Hd) Hn.
  assert (Hn1 : Forall plainElem [n]) by (constructor; [exact Hn | constructor]).
  assert (Hes' : Forall plainElem (es ++ [n])) by (apply Forall_app; auto).
  assert (Hne' : es ++ [n] <> []) by (destruct es; discriminate).
  destruct Hd as [-> | ->].
  - rewrite Join_absPath, absPath_snoc by assumption. split; [reflexivity|].
    rewrite <- absPath_snoc by assumption. exists (es ++ [n]). auto.
  - rewrite Join_relPath, relPath_snoc by assumption. split; [reflexivity|].
    rewrite <- relPath_snoc by assumption. exists (es ++ [n]). auto.
Qed.

Lemma Join3_plain (d n1 n2 : string) :
  plainPath d -> plainElem n1 -> plainElem n2 ->
  Join [d; n1; n2] = (d ++ "/" ++ n1 ++ "/" ++ n2)%string.
Proof.
  intros (es & Hes & Hne & Hd) Hn1 Hn2.
  assert (Hns : Forall plainElem [n1; n2])
    by (constructor; [exact Hn1 | constructor; [exact Hn2 | constructor]]).
  assert (Hne1 : es ++ [n1] <> []) by (destruct es; discriminate).
  destruct Hd as [-> | ->].
  - rewrite Join_absPath by assumption.
    replace (es ++ [n1; n2]) with ((es ++ [n1]) ++ [n2]) by (now rewrite <- app_assoc).
    rewrite !absPath_snoc by assumption. now rewrite !append_assoc_s.
  - rewrite Join_relPath by assumption.
    replace (es ++ [n1; n2]) with ((es ++ [n1]) ++ [n2]) by (now rewrite <- app_assoc).
    rewrite !relPath_snoc by assumption. now rewrite !append_assoc_s.
Qed.

End PlainPaths.

(** * The gate's message, paths written out, and the order of system calls *)

Section Literal.
Context {HST : Host}.

(** C3.  When the version query succeeds and its output contains a
    substring of the shape v<digits>(.<digits>)+, the match found is
    "v", a major digit run and its groups; the first dot-separated
    field after the "v" is that major run; the gate succeeds exactly
    when it is "3", and for any other major it fails with the message
    "this plugin requires helm V3 but got v<major><groups>", which
    ends with the version found. *)
Theorem checkHelmVersion_major_3 p (w w1 : World) (stdout : string) :
  callRunHelmCommand p versionArgs w = (Val (stdout, None), w1) ->
  regexp.ContainsVersion stdout ->
  exists major g,
    regexp.Digits1 major /\ regexp.Groups g /\
    regexp.Find stdout = Some ("v" ++ major ++ g)%string /\
    index0 (strings.Split (major ++ g) ".") = Val major /\
    (checkHelmVersion p w = (Val None, w1) <-> major = "3"%string) /\
    (major <> "3"%string ->
     checkHelmVersion p w =
       (Val (Some ("this plugin requires helm V3 but got v" ++ major ++ g)%string), w1)).
Proof.
  intros Hrun Hc. rewrite (@checkHelmVersion_run _ p w w1 stdout Hrun).
  destruct (@gate_match stdout Hc) as [major [g [Hd [Hg [Hf Hgate]]]]].
  exists major, g. rewrite Hgate.
  split; [exact Hd|]. split; [exact Hg|]. split; [exact Hf|].
  split; [exact (Split_major Hd Hg)|].
  destruct (String.eqb_spec major "3") as [-> | Hne].
  - split; [split; reflexivity | congruence].
  - split; [split; [discriminate | contradiction] | reflexivity].
Qed.

(** C7 (as amended).  The render argument list is "template", the
    release name when non-empty, the cleaned join [path.Join] of chart
    home and chart name, "--namespace" and the namespace when
    non-empty, "--values" and the values path when non-empty, and the
    extra arguments as they are; whenever the chart home is a path of
    plain elements and the chart name a plain element, the joined path
    is chart home, slash, chart name, and the list is the one the
    specification words. *)
Theorem getTemplateCommandArgs_joined p :
  getTemplateCommandArgs p =
    ["template"%string]
    ++ (if String.eqb (ReleaseName (args p)) "" then [] else [ReleaseName (args p)])
    ++ [path.Join [ChartHome (args p); ChartName (args p)]]
    ++ (if String.eqb (ReleaseNamespace (args p)) "" then []
        else ["--namespace"%string; ReleaseNamespace (args p)])
    ++ (if String.eqb (Values (args p)) "" then []
        else ["--values"%string; Values (args p)])
    ++ ExtraArgs (args p) /\
  (plainPath (ChartHome (args p)) -> plainElem (ChartName (args p)) ->
   path.Join [ChartHome (args p); ChartName (args p)]
     = (ChartHome (args p) ++ "/" ++ ChartName (args p))%string /\
   getTemplateCommandArgs p = templateArgsAsWorded p).
Proof.
  assert (Hlist : getTemplateCommandArgs p =
    ["template"%string]
    ++ (if String.eqb (ReleaseName (args p)) "" then [] else [ReleaseName (args p)])
    ++ [path.Join [ChartHome (args p); ChartName (args p)]]
    ++ (if String.eqb (ReleaseNamespace (args p)) "" then []
        else ["--namespace"%string; ReleaseNamespace (args p)])
    ++ (if String.eqb (Values (args p)) "" then []
        else ["--values"%string; Values (args p)])
    ++ ExtraArgs (args p)).
  { unfold getTemplateCommandArgs.
    destruct (String.eqb (ReleaseName (args p)) "");
      destruct (String.eqb (ReleaseNamespace (args p)) "");
      destruct (String.eqb (Values (args p)) ""); reflexivity. }
  split; [exact Hlist|]. intros Hd Hn.
  destruct (Join_plain Hd Hn) as [Hj _]. split; [exact Hj|].
  rewrite Hlist, Hj. reflexivity.
Qed.

(** C9 (as amended).  With the optional fields of the decoded
    configuration unset, [Config] succeeds and resolves, in this order,
    chart home as the join of the working directory and "chart", the
    repository alias "stable", the renderer binary "helm", the renderer
    home, and then the values path as the cleaned join of the resolved
    chart home, the chart name and "values.yaml"; whenever the working
    directory is a path of plain elements and the chart name a plain
    element, these are the working directory followed by "/chart" and
    "/.helm", and the values path is chart home, slash, chart name,
    slash, "values.yaml". *)
Theorem Config_default_values_path p (hp : PluginHelpers) (config : string)
    (w : World) (a : HelmChartArgs) (tmp : string) (f' : FS) :
  yaml_Unmarshal config (args p) = (a, None) ->
  NewTmpConfirmedDir (fs w) = ((tmp, None), f') ->
  ChartName a <> ""%string ->
  ChartHome a = ""%string -> ChartRepoName a = ""%string -> HelmBin a = ""%string ->
  HelmHome a = ""%string -> Values a = ""%string ->
  exists p',
    fst (Config p hp config w) = Val (p', None) /\
    tmpDir p' = tmp /\
    ChartName (args p') = ChartName a /\
    ChartHome (args p') = path.Join [tmp; "chart"%string] /\
    ChartRepoName (args p') = "stable"%string /\
    HelmBin (args p') = "helm"%string /\
    HelmHome (args p') = path.Join [tmp; ".helm"%string] /\
    Values (args p') =
      path.Join [ChartHome (args p'); ChartName (args p'); "values.yaml"%string] /\
    (plainPath tmp -> plainElem (ChartName a) ->
     ChartHome (args p') = (tmp ++ "/chart")%string /\
     HelmHome (args p') = (tmp ++ "/.helm")%string /\
     Values (args p') = valuesPathAsWorded (ChartHome (args p')) (ChartName (args p')) /\
     Values (args p') = (tmp ++ "/chart/" ++ ChartName a ++ "/values.yaml")%string).
Proof.
  intros Hy Ht Hn Hch Hrn Hhb Hhh Hv. rewrite (@Config_run _ p hp config w a tmp f' Hy Ht).
  apply String.eqb_neq in Hn. rewrite Hn. eexists. split; [reflexivity|].
  destruct (applyDefaults_fields tmp a) as (E1 & E2 & E3 & E4 & E5 & E6 & _).
  rewrite Hch in E1. rewrite Hrn in E2. rewrite Hhb in E3. rewrite Hhh in E4.
  rewrite Hv in E5. simpl in E1, E2, E3, E4, E5. cbn [tmpDir args].
  rewrite E6.
  split; [reflexivity|]. split; [reflexivity|]. split; [exact E1|].
  split; [exact E2|]. split; [exact E3|]. split; [exact E4|]. split; [exact E5|].
  intros Htmp Hname.
  destruct (Join_plain Htmp plainElem_chart) as [Hj1 Hp1].
  destruct (Join_plain Htmp plainElem_helm) as [Hj2 _].
  pose proof (Join3_plain Hp1 Hname plainElem_values) as Hj3.
  rewrite E5, E4, E1, Hj1, Hj2, Hj3. unfold valuesPathAsWorded.
  repeat split. now rewrite !append_assoc_s.
Qed.

(** X7.  With the closure installed by [Config], the system calls of a
    run of [Generate] are determined by the outcomes of its steps: the
    version query first and the removal of the working directory last;
    between them the stat of the chart path exactly when the gate
    passed, then the fetch exactly when no directory was found, then
    the render exactly when a directory was found or the fetch process
    succeeded.  A render is thus never run after a failed gate or a
    failed fetch. *)
Theorem Generate_trace_shapes p (w : World) :
  runHelmCommand p = Some helmCommand ->
  log (snd (Generate p w)) = log w ++ expectedTrace p w /\
  In (expectedTrace p w) (generateTraces p) /\
  (In (execEvent p (getTemplateCommandArgs p)) (expectedTrace p w) ->
   fst (checkHelmVersion p w) = Val None /\
   (isDir (lookupFS (fs (snd (checkHelmVersion p w))) (chartDir p)) = true \/
    procErr (fst (runProcess (HelmBin (args p)) (getPullCommandArgs p)
                    (helmEnv (args p)) (fs (snd (checkHelmVersion p w))))) = None)).
Proof.
  intros Hc. pose proof (@checkHelmVersion_invoke _ p w Hc) as Hg.
  assert (HTV : execEvent p (getTemplateCommandArgs p) <> execEvent p versionArgs).
  { unfold execEvent. intros [= Heq]. pose proof (template_head p) as Hh.
    rewrite Heq in Hh. discriminate. }
  assert (HTP : execEvent p (getTemplateCommandArgs p)
                <> execEvent p (getPullCommandArgs p)).
  { unfold execEvent. intros [= Heq]. pose proof (template_head p) as Hh.
    rewrite Heq, pull_head in Hh. discriminate. }
  unfold expectedTrace. rewrite Hg. cbn [fst snd].
  destruct (match procErr (fst (invoke p versionArgs w)) with
            | Some _ => _ | None => _ end) as [[e|]|msg].
  - rewrite (@Generate_gate_failed _ p w _ _ Hg). split; [|split].
    + unfold cleanup, invoke. simpl. now rewrite <- app_assoc.
    + left. reflexivity.
    + intros [Hin | [Hin | []]]; [symmetry in Hin; contradiction | discriminate].
  - rewrite (@Generate_gate_passed _ p w _ Hc Hg). unfold acquireStep.
    assert (Hfs : fs (snd (invoke p versionArgs w))
                  = snd (runProcess (HelmBin (args p)) versionArgs (helmEnv (args p)) (fs w)))
      by reflexivity.
    destruct (isDir (lookupFS (fs (snd (invoke p versionArgs w))) (chartDir p))).
    + split; [|split].
      * rewrite renderStep_log. unfold logged, invoke. simpl. now rewrite <- !app_assoc.
      * right. left. reflexivity.
      * intros _. split; [reflexivity | left; reflexivity].
    + unfold invoke at 1 2. cbn [fst snd fs logged].
      destruct (procErr (fst (runProcess (HelmBin (args p)) (getPullCommandArgs p)
                                (helmEnv (args p)) _))) eqn:He.
      * split; [|split].
        -- unfold cleanup, invoke. simpl. now rewrite <- !app_assoc.
        -- right. right. left. reflexivity.
        -- intros [Hin | [Hin | [Hin | [Hin | []]]]];
             first [symmetry in Hin; contradiction | discriminate].
      * split; [|split].
        -- rewrite renderStep_log. unfold invoke. simpl. now rewrite <- !app_assoc.
        -- right. right. right. left. reflexivity.
        -- intros _. split; [reflexivity | right; reflexivity].
  - rewrite (@Generate_gate_panicked _ p w _ _ Hg). split; [|split].
    + unfold cleanup, invoke. simpl. now rewrite <- app_assoc.
    + left. reflexivity.
    + intros [Hin | [Hin | []]]; [symmetry in Hin; contradiction | discriminate].
Qed.

(** X13.  [Generate] itself touches nothing outside the working
    directory: a path outside it that none of the three invocations of
    this run (the plugin's renderer with the version, fetch and render
    arguments and the plugin's environment) changes, holds after
    [Generate] what it held before. *)
Theorem Generate_frame p (w : World) (name : string) :
  runHelmCommand p = Some helmCommand ->
  (forall arg f, In arg (runArgs p) ->
     lookupFS (snd (runProcess (HelmBin (args p)) arg (helmEnv (args p)) f)) name
     = lookupFS f name) ->
  within (tmpDir p) name = false ->
  lookupFS (fs (snd (Generate p w))) name = lookupFS (fs w) name.
Proof.
  intros Hc Hproc Hout. pose proof (@checkHelmVersion_invoke _ p w Hc) as Hg.
  assert (HV : In versionArgs (runArgs p)) by (left; reflexivity).
  assert (HP : In (getPullCommandArgs p) (runArgs p)) by (right; left; reflexivity).
  assert (HT : In (getTemplateCommandArgs p) (runArgs p))
    by (right; right; left; reflexivity).
  assert (Hv : lookupFS (fs (snd (invoke p versionArgs w))) name = lookupFS (fs w) name)
    by (unfold invoke; cbn [fs snd]; apply Hproc, HV).
  destruct (match procErr (fst (invoke p versionArgs w)) with
            | Some _ => _ | None => _ end) as [[e|]|msg].
  - rewrite (@Generate_gate_failed _ p w _ _ Hg). unfold cleanup. cbn [fs snd].
    now rewrite removeAllFS_kept.
  - rewrite (@Generate_gate_passed _ p w _ Hc Hg). rewrite <- Hv.
    generalize (snd (invoke p versionArgs w)). intros w1.
    unfold acquireStep. destruct (isDir (lookupFS (fs w1) (chartDir p))).
    + rewrite renderStep_fs, removeAllFS_kept by assumption. apply Hproc, HT.
    + unfold invoke, logged. cbn [fs fst snd].
      destruct (procErr _).
      * unfold cleanup. cbn [fs snd]. rewrite removeAllFS_kept by assumption.
        apply Hproc, HP.
      * rewrite renderStep_fs, removeAllFS_kept by assumption. cbn [fs].
        rewrite (Hproc _ _ HT). apply Hproc, HP.
  - rewrite (@Generate_gate_panicked _ p w _ _ Hg). unfold cleanup. cbn [fs snd].
    now rewrite removeAllFS_kept.
Qed.

End Literal.

(** ** Runs on the test doubles *)

Lemma checkHelmVersion_major_3_witness :
  callRunHelmCommand v2Plugin versionArgs v2World =
    (Val ("Client: v2.16.1+gbbdfe5e"%string, None),
     snd (callRunHelmCommand v2Plugin versionArgs v2World)) /\
  regexp.ContainsVersion "Client: v2.16.1+gbbdfe5e" /\
  (exists major g,
    regexp.Digits1 major /\ regexp.Groups g /\
    regexp.Find "Client: v2.16.1+gbbdfe5e" = Some ("v" ++ major ++ g)%string /\
    index0 (strings.Split (major ++ g) ".") = Val major /\
    (checkHelmVersion v2Plugin v2World =
       (Val None, snd (callRunHelmCommand v2Plugin versionArgs v2World))
     <-> major = "3"%string) /\
    (major <> "3"%string ->
     checkHelmVersion v2Plugin v2World =
       (Val (Some ("this plugin requires helm V3 but got v" ++ major ++ g)%string),
        snd (callRunHelmCommand v2Plugin versionArgs v2World)))) /\
  regexp.Find "Client: v2.16.1+gbbdfe5e" = Some "v2.16.1"%string /\
  fst (checkHelmVersion v2Plugin v2World) =
    Val (Some "this plugin requires helm V3 but got v2.16.1"%string).
Proof.
  assert (Hc : regexp.ContainsVersion "Client: v2.16.1+gbbdfe5e").
  { apply ContainsVersion_Find. eexists. reflexivity. }
  split; [reflexivity|]. split; [exact Hc|]. split; [|split; reflexivity].
  apply (@checkHelmVersion_major_3 v2Host v2Plugin v2World
           (snd (callRunHelmCommand v2Plugin versionArgs v2World))
           "Client: v2.16.1+gbbdfe5e"%string); [reflexivity | exact Hc].
Defined.

(** C7, the claim as stated fails: with the chart home "./charts" the
    chart path passed to the renderer is the cleaned "charts/nginx",
    not chart home, slash, chart name. *)
Lemma getTemplateCommandArgs_not_as_worded :
  fst (@Config dotHost (@KustomizePlugin dotHost) (fakeHelpers dotArgs helm3) "" world0)
    = Val (dotPlugin, None) /\
  ChartHome (args dotPlugin) = "./charts"%string /\
  ChartName (args dotPlugin) = "nginx"%string /\
  getTemplateCommandArgs dotPlugin =
    ["template"; "charts/nginx"; "--values"; "charts/nginx/values.yaml"]%string /\
  templateArgsAsWorded dotPlugin =
    ["template"; "./charts/nginx"; "--values"; "charts/nginx/values.yaml"]%string /\
  getTemplateCommandArgs dotPlugin <> templateArgsAsWorded dotPlugin.
Proof.
  repeat split; try reflexivity. discriminate.
Qed.

Lemma getTemplateCommandArgs_joined_witness :
  plainPath (ChartHome (args homePlugin)) /\
  plainElem (ChartName (args homePlugin)) /\
  path.Join [ChartHome (args homePlugin); ChartName (args homePlugin)]
    = "/srv/charts/nginx"%string /\
  getTemplateCommandArgs homePlugin =
    ["template"; "/srv/charts/nginx"; "--values"; "/srv/charts/nginx/values.yaml"]%string.
Proof.
  assert (Hd : plainPath (ChartHome (args homePlugin))).
  { exists ["srv"; "charts"]%string. split; [|split; [discriminate | left; reflexivity]].
    repeat constructor; discriminate. }
  assert (Hn : plainElem (ChartName (args homePlugin))) by (repeat split; discriminate).
  split; [exact Hd|]. split; [exact Hn|].
  exact (proj2 (@getTemplateCommandArgs_joined homeHost homePlugin) Hd Hn).
Defined.

(** C9, the claim as stated fails: with the chart name "../x" and every
    optional field unset, the resolved values path is the cleaned
    "/tmp/kustomize-042/x/values.yaml", which is not chart home, slash,
    chart name, slash, "values.yaml" and does not lie below the chart
    home. *)
Lemma Config_values_path_not_as_worded :
  fst (@Config upHost (@KustomizePlugin upHost) (fakeHelpers upArgs helm3) "" world0)
    = Val (upPlugin, None) /\
  ChartName (args upPlugin) = "../x"%string /\
  ChartHome (args upPlugin) = "/tmp/kustomize-042/chart"%string /\
  Values (args upPlugin) = "/tmp/kustomize-042/x/values.yaml"%string /\
  valuesPathAsWorded (ChartHome (args upPlugin)) (ChartName (args upPlugin))
    = "/tmp/kustomize-042/chart/../x/values.yaml"%string /\
  Values (args upPlugin)
    <> valuesPathAsWorded (ChartHome (args upPlugin)) (ChartName (args upPlugin)) /\
  within (ChartHome (args upPlugin)) (Values (args upPlugin)) = false.
Proof.
  repeat split; try reflexivity. discriminate.
Qed.

Lemma Config_default_values_path_witness :
  @yaml_Unmarshal nginxHost "" (args (@KustomizePlugin nginxHost)) = (nginxArgs, None) /\
  @NewTmpConfirmedDir nginxHost (fs world0) = ((fakeTmp, None), [(fakeTmp, ModeDir)]) /\
  ChartName nginxArgs <> ""%string /\
  plainPath fakeTmp /\ plainElem (ChartName nginxArgs) /\
  exists p',
    fst (@Config nginxHost (@KustomizePlugin nginxHost) (fakeHelpers nginxArgs helm3)
           "" world0) = Val (p', None) /\
    ChartHome (args p') = "/tmp/kustomize-042/chart"%string /\
    ChartRepoName (args p') = "stable"%string /\
    HelmBin (args p') = "helm"%string /\
    HelmHome (args p') = "/tmp/kustomize-042/.helm"%string /\
    Values (args p') = "/tmp/kustomize-042/chart/nginx/values.yaml"%string.
Proof.
  assert (Hne : ChartName nginxArgs <> ""%string) by (simpl; discriminate).
  assert (Htmp : plainPath fakeTmp).
  { exists ["tmp"; "kustomize-042"]%string.
    split; [|split; [discriminate | left; reflexivity]].
    repeat constructor; discriminate. }
  assert (Hn : plainElem (ChartName nginxArgs)) by (repeat split; discriminate).
  split; [reflexivity|]. split; [reflexivity|]. split; [exact Hne|].
  split; [exact Htmp|]. split; [exact Hn|].
  destruct (@Config_default_values_path nginxHost (@KustomizePlugin nginxHost)
              (fakeHelpers nginxArgs helm3) ""%string world0 nginxArgs fakeTmp
              [(fakeTmp, ModeDir)] eq_refl eq_refl Hne eq_refl eq_refl eq_refl eq_refl
              eq_refl)
    as (p' & Hcfg & _ & _ & _ & Hrn & Hhb & _ & _ & Hlit).
  destruct (Hlit Htmp Hn) as (Hch & Hhh & _ & Hv).
  exists p'. repeat split; assumption.
Defined.

Lemma Generate_trace_shapes_witness :
  runHelmCommand noPullPlugin = Some (@helmCommand noPullHost) /\
  expectedTrace noPullPlugin noPullWorld =
    [execEvent noPullPlugin versionArgs;
     EvStat "/tmp/kustomize-042/chart/nginx";
     execEvent noPullPlugin
       ["pull"; "--untar"; "--untardir"; "/tmp/kustomize-042/chart"; "stable/nginx"];
     EvRemoveAll "/tmp/kustomize-042"]%string /\
  log (snd (Generate noPullPlugin noPullWorld))
    = log noPullWorld ++ expectedTrace noPullPlugin noPullWorld /\
  In (expectedTrace noPullPlugin noPullWorld) (generateTraces noPullPlugin) /\
  (In (execEvent noPullPlugin (getTemplateCommandArgs noPullPlugin))
      (expectedTrace noPullPlugin noPullWorld) ->
   fst (checkHelmVersion noPullPlugin noPullWorld) = Val None /\
   (isDir (lookupFS (fs (snd (checkHelmVersion noPullPlugin noPullWorld)))
             (chartDir noPullPlugin)) = true \/
    procErr (fst (@runProcess noPullHost (HelmBin (args noPullPlugin))
                    (getPullCommandArgs noPullPlugin) (helmEnv (args noPullPlugin))
                    (fs (snd (checkHelmVersion noPullPlugin noPullWorld))))) = None)).
Proof.
  split; [reflexivity|]. split; [reflexivity|].
  apply (@Generate_trace_shapes noPullHost noPullPlugin noPullWorld). reflexivity.
Defined.

Lemma Generate_frame_witness :
  runHelmCommand farPlugin = Some (@helmCommand nginxHost) /\
  (forall arg f, In arg (runArgs farPlugin) ->
     lookupFS (snd (@runProcess nginxHost (HelmBin (args farPlugin)) arg
                      (helmEnv (args farPlugin)) f)) "/srv/charts/nginx"
     = lookupFS f "/srv/charts/nginx") /\
  within (tmpDir farPlugin) "/srv/charts/nginx" = false /\
  log (snd (Generate farPlugin farWorld)) =
    log farWorld ++
    [execEvent farPlugin versionArgs;
     EvStat "/tmp/kustomize-042/chart/nginx";
     execEvent farPlugin (getPullCommandArgs farPlugin);
     execEvent farPlugin (getTemplateCommandArgs farPlugin);
     EvRemoveAll "/tmp/kustomize-042"]%string /\
  lookupFS (fs farWorld) "/srv/charts/nginx" = Some ModeDir /\
  lookupFS (fs (snd (Generate farPlugin farWorld))) "/srv/charts/nginx"
    = lookupFS (fs farWorld) "/srv/charts/nginx".
Proof.
  assert (Hp : forall arg f, In arg (runArgs farPlugin) ->
     lookupFS (snd (@runProcess nginxHost (HelmBin (args farPlugin)) arg
                      (helmEnv (args farPlugin)) f)) "/srv/charts/nginx"
     = lookupFS f "/srv/charts/nginx").
  { intros arg f [<- | [<- | [<- | []]]]; reflexivity. }
  split; [reflexivity|]. split; [exact Hp|]. split; [reflexivity|].
  split; [reflexivity|]. split; [reflexivity|].
  apply (@Generate_frame nginxHost farPlugin farWorld "/srv/charts/nginx"%string);
    [reflexivity | exact Hp | reflexivity].
Defined.
